(** * flang runtime and tools: fast integer sets and descriptor-driven I/O

    A shallow embedding of two translation units of the flang sources,

    - [tools/flang2/flang2exe/fastset.h]: sets of small nonnegative
      integers in the representation of Briggs and Torczon (a dense array
      of members and a sparse array of back pointers, neither of which is
      ever initialised);
    - [runtime/flang/descRW.c]: the hpf array i/o driver [__fortio_main]
      with its two per-run transfer routines [__io_read] and [__io_write];

    followed by the properties of both that the design document states. *)

From stdpp Require Import base option list numbers.

Open Scope Z_scope.

(* ===================================================================== *)
(** * Machine integers *)
(* ===================================================================== *)

Module CInt.

(** [unsigned] and [int] are 32 bits wide. *)
Definition UINT_MAX : Z := 4294967295.
Definition INT_MAX : Z := 2147483647.
Definition INT_MIN : Z := -2147483648.

(** The conversion [(unsigned)x]: reduction modulo 2^32. *)
Definition to_unsigned (x : Z) : Z := x mod 4294967296.

(** The conversion of an [unsigned] to [int] (two's complement). *)
Definition to_int (u : Z) : Z :=
  if to_unsigned u <=? INT_MAX then to_unsigned u
  else to_unsigned u - 4294967296.

Definition is_unsigned (v : Z) : Prop := 0 <= v <= UINT_MAX.
Definition is_int (v : Z) : Prop := INT_MIN <= v <= INT_MAX.

(** [a * b] on [int]; an overflowing product (undefined in C) is reduced
    to the 32 bits that the hardware keeps. *)
Definition int_mul (a b : Z) : Z := to_int (a * b).

End CInt.

(* ===================================================================== *)
(** * fastset.h *)
(* ===================================================================== *)

Module FastSet.
Import CInt.

(** [struct fastset { unsigned members, limit, *member, *index; }].
    The two heap arrays are lists of cells; a cell that the program never
    wrote holds whatever the allocator left there. *)
Record fastset : Type := mk_fastset {
  members : Z;
  limit : Z;
  member : list Z;
  index : list Z
}.

(** An array read [a[i]].  An access outside the allocation has no
    defined behaviour and yields [None]. *)
Definition rd (a : list Z) (i : Z) : option Z :=
  if i <? 0 then None else a !! Z.to_nat i.

(** An array write [a[i] = v]. *)
Definition wr (a : list Z) (i v : Z) : option (list Z) :=
  if (0 <=? i) && (i <? Z.of_nat (length a))
  then Some (<[Z.to_nat i := v]> a) else None.

(** What a reallocation leaves in the cells it appends: nothing the
    program can rely on, so every theorem quantifies over it. *)
Record fresh_cells : Type := mk_fresh {
  fresh_member : nat -> Z;
  fresh_index : nat -> Z
}.

Definition grown (a : list Z) (junk : nat -> Z) (n : Z) : list Z :=
  a ++ ((fun k => to_unsigned (junk k))
          <$> seq (length a) (Z.to_nat n - length a)).

(** Modelled from the spec: [fastset_resize] is declared in the header
    and defined in a file that is not part of the sources at hand.  The
    design document has it grow the backing capacity by reallocation
    "with geometric or sufficient growth, preserving existing members";
    the model reallocates both arrays to exactly [limit_hint] cells
    (sufficient growth) when the hint exceeds the current limit and
    leaves the set alone otherwise. *)
Definition fastset_resize (junk : fresh_cells) (set : fastset)
    (limit_hint : Z) : fastset :=
  if limit set <? limit_hint then
    {| members := members set;
       limit := limit_hint;
       member := grown (member set) (fresh_member junk) limit_hint;
       index := grown (index set) (fresh_index junk) limit_hint |}
  else set.

(** [fastset_init]: every field of the (so far indeterminate) object is
    overwritten; both pointers are NULL, i.e. zero cells are allocated. *)
Definition fastset_init (set : fastset) : fastset :=
  {| members := 0; limit := 0; member := []; index := [] |}.

Definition fastset_vacate (set : fastset) : fastset :=
  {| members := 0; limit := limit set;
     member := member set; index := index set |}.

Definition fastset_members (set : fastset) : Z := to_int (members set).

Definition fastset_limit (set : fastset) : Z := to_int (limit set).


Definition fastset_get (set : fastset) (idx : Z) : option Z :=
  to_int <$> rd (member set) idx.

(** [return set->members == 0 ? -1 : set->member[--set->members];] *)
Definition fastset_pop (set : fastset) : option (Z * fastset) :=
  if members set =? 0 then Some (-1, set)
  else
    let members' := to_unsigned (members set - 1) in
    v ← rd (member set) members';
    Some (to_int v,
          {| members := members'; limit := limit set;
             member := member set; index := index set |}).

(** [(unsigned)x < set->limit && (idx = set->index[x]) < set->members &&
     set->member[idx] == x], with [x] an [int]: the subscript of
    [set->index] is the signed [x], the two comparisons are unsigned. *)
Definition fastset_contains (set : fastset) (x : Z) : option bool :=
  if to_unsigned x <? limit set then
    idx ← rd (index set) x;
    if idx <? members set then
      m ← rd (member set) idx;
      Some (m =? to_unsigned x)
    else Some false
  else Some false.

(** The branch of [fastset_add] before its final statement: [None] is the
    early [return], [Some s] falls through with the set [s]. *)
Definition fastset_add_probe (junk : fresh_cells) (set : fastset) (x : Z)
    : option (option fastset) :=
  if limit set <=? x then
    Some (Some (fastset_resize junk set (to_unsigned (x + 1))))
  else
    idx ← rd (index set) x;
    if idx <? members set then
      m ← rd (member set) idx;
      if m =? x then Some None else Some (Some set)
    else Some (Some set).

(** [set->member[set->index[x] = set->members++] = x;] *)
Definition fastset_add_store (set : fastset) (x : Z) : option fastset :=
  let slot := members set in
  index' ← wr (index set) x slot;
  member' ← wr (member set) slot x;
  Some {| members := to_unsigned (slot + 1); limit := limit set;
          member := member'; index := index' |}.

(** [fastset_add(fastset *set, unsigned x)]. *)
Definition fastset_add (junk : fresh_cells) (set : fastset) (x : Z)
    : option fastset :=
  probe ← fastset_add_probe junk set x;
  match probe with
  | None => Some set
  | Some set' => fastset_add_store set' x
  end.

(** [fastset_remove(fastset *set, int x)]. *)
Definition fastset_remove (set : fastset) (x : Z) : option fastset :=
  if to_unsigned x <? limit set then
    idx ← rd (index set) x;
    if idx <? members set then
      m ← rd (member set) idx;
      if m =? to_unsigned x then
        let members' := to_unsigned (members set - 1) in
        last ← rd (member set) members';
        index' ← wr (index set) last idx;
        member' ← wr (member set) idx last;
        Some {| members := members'; limit := limit set;
                member := member'; index := index' |}
      else Some set
    else Some set
  else Some set.

(** ** The representation invariant, as the header's comment states it *)

(** "set->member[] contains the distinct elements of the set in arbitrary
    order in its leading set->members positions, and garbage
    afterwards." *)
Definition is_member (set : fastset) (x : Z) : Prop :=
  exists p, 0 <= p < members set /\ rd (member set) p = Some x.

(** "For each element x in a set, both of these predicates must be true:
    1) 0 <= set->index[x] < set->members, and
    2) set->member[set->index[x]] == x". *)
Definition member_indexed (set : fastset) : Prop :=
  forall x, is_member set x ->
    exists p, rd (index set) x = Some p /\
              0 <= p < members set /\ rd (member set) p = Some x.

(** "For all values x that are not in a set, either x >= set->limit, or
    set->index[x] >= set->members, or
    set->member[set->index[x]] != x." *)
Definition nonmember_rejected (set : fastset) : Prop :=
  forall x, 0 <= x -> ~ is_member set x ->
    limit set <= x \/
    exists p, rd (index set) x = Some p /\
              (members set <= p \/
               exists m, rd (member set) p = Some m /\ m <> x).

(** The leading positions hold distinct elements. *)
Definition distinct_members (set : fastset) : Prop :=
  forall p q x, 0 <= p < members set -> 0 <= q < members set ->
    rd (member set) p = Some x -> rd (member set) q = Some x -> p = q.

(** The shape of the object: both arrays have [limit] cells of type
    [unsigned], and every element is below the limit. *)
Record well_formed (set : fastset) : Prop := mk_wf {
  wf_limit : 0 <= limit set <= UINT_MAX;
  wf_members : 0 <= members set <= limit set;
  wf_member_cells : Z.of_nat (length (member set)) = limit set;
  wf_index_cells : Z.of_nat (length (index set)) = limit set;
  wf_member_unsigned : Forall is_unsigned (member set);
  wf_index_unsigned : Forall is_unsigned (index set);
  wf_below_limit : forall x, is_member set x -> x < limit set
}.

Record rep_inv (set : fastset) : Prop := mk_rep_inv {
  inv_wf : well_formed set;
  inv_distinct : distinct_members set;
  inv_indexed : member_indexed set
}.

(** The leading [members] cells of the member array, as a list. *)
Definition live (set : fastset) : list Z :=
  take (Z.to_nat (members set)) (member set).

(** The sets a client can build through the public operations. *)
Inductive reachable : fastset -> Prop :=
| reach_init s0 :
    reachable (fastset_init s0)
| reach_vacate s :
    reachable s -> reachable (fastset_vacate s)
| reach_add junk s x s' :
    reachable s -> is_unsigned x -> fastset_add junk s x = Some s' ->
    reachable s'
| reach_remove s x s' :
    reachable s -> is_int x -> fastset_remove s x = Some s' ->
    reachable s'
| reach_pop s v s' :
    reachable s -> fastset_pop s = Some (v, s') -> reachable s'.

End FastSet.

(* ===================================================================== *)
(** * descRW.c *)
(* ===================================================================== *)

Module DescRW.
Import CInt.

(** Addresses are numbers; [NULL] is 0. *)
Definition addr : Type := Z.
Definition NULL : addr := 0.

(** The fields of [F90_Desc] that this file reads, named after the
    accessor macros it reads them with. *)
Record F90_Desc : Type := mk_desc {
  F90_TAG_G : Z;
  F90_RANK_G : Z;
  F90_KIND_G : Z;
  F90_LEN_G : Z;
  F90_GSIZE_G : Z;
  DIST_SCOFF_G : Z
}.

(** The replication descriptor; only [ndim] is read here. *)
Record repl_t : Type := mk_repl { ndim : Z }.

(** What the program does to the world outside this file, in the order
    in which it does it. *)
Inductive event : Type :=
| Ev_local_address (ab : addr) (index : list Z) (result : addr)
| Ev_getgbuf (len : Z) (result : addr)
| Ev_describe_replication
| Ev_f90io_rw (kind cnt str : Z) (adr : addr) (len : Z) (result : Z)
| Ev_rsendl (cpu : Z) (adr : addr) (cnt str kind len : Z)
| Ev_rrecvl (cpu : Z) (adr : addr) (cnt str kind len : Z)
| Ev_rbcstl (cpu : Z) (adr : addr) (cnt str kind len : Z).

Definition trace : Type := list event.

(** The f90io function passed to [__fortio_main].  It reads or writes the
    file, so what it returns may depend on everything that happened
    before the call. *)
Definition io_fn : Type := trace -> Z -> Z -> Z -> addr -> Z -> Z.

Inductive fio_routine : Type := Io_read | Io_write.

(** [fio_parm], the request that is threaded through one call. *)
Record fio_parm : Type := mk_fio_parm {
  z_ab : addr;
  z_ac : F90_Desc;
  z_f90io_rw : io_fn;
  z_fio_rw : fio_routine;
  z_cnt : Z;
  z_str : Z;
  z_index : list Z;
  z_stat : Z;
  z_repl : repl_t
}.

Definition set_stat (z : fio_parm) (stat : Z) : fio_parm :=
  {| z_ab := z_ab z; z_ac := z_ac z; z_f90io_rw := z_f90io_rw z;
     z_fio_rw := z_fio_rw z; z_cnt := z_cnt z; z_str := z_str z;
     z_index := z_index z; z_stat := stat; z_repl := z_repl z |}.

(** One contiguous run, as the loop over the index space hands it to the
    per-run routine: it stores the three values in the request. *)
Record run : Type := mk_run {
  run_index : list Z;
  run_cnt : Z;
  run_str : Z
}.

Definition set_run (z : fio_parm) (r : run) : fio_parm :=
  {| z_ab := z_ab z; z_ac := z_ac z; z_f90io_rw := z_f90io_rw z;
     z_fio_rw := z_fio_rw z; z_cnt := run_cnt r; z_str := run_str r;
     z_index := run_index r; z_stat := z_stat z; z_repl := z_repl z |}.

(** What the headers and the other translation units supply to this file
    on one participant: the constants and accessors of [fioMacros.h] and
    [fort_vars.h], the address resolver, the buffer allocator, the
    replication setup and the index-space loop. *)
Record runtime : Type := mk_runtime {
  LOCAL_MODE : bool;
  GET_DIST_LCPU : Z;
  GET_DIST_IOPROC : Z;
  GET_DIST_SIZE_OF : Z -> Z;
  TYPEKIND : F90_Desc -> Z;
  __DESC : Z;
  __fort_local_address : addr -> F90_Desc -> list Z -> addr;
  __fort_getgbuf : Z -> addr;
  __fort_describe_replication : F90_Desc -> repl_t;
  fortio_runs : F90_Desc -> Z -> list run
}.

(** ** The three macros defined at the top of the file *)

(** [#define __fort_owner(a, b) 0] *)
Definition __fort_owner (a : F90_Desc) (b : list Z) : Z := 0.

(** [#define __fort_next_owner(a, b, c, d) -1] *)
Definition __fort_next_owner (a : F90_Desc) (b : repl_t) (c : list Z)
    (d : Z) : Z := -1.

(** [__fortio_stat_bcst(a)] is defined as a macro that dereferences [a]:
    the value of the status word it is given, nothing else. *)
Definition __fortio_stat_bcst (stat : Z) : Z := stat.

(** ** Computations that extend the trace and may run out of fuel *)

Definition io (A : Type) : Type := trace -> option (A * trace).

Definition io_ret {A} (a : A) : io A := fun t => Some (a, t).

Definition io_bind {A B} (m : io A) (k : A -> io B) : io B :=
  fun t => match m t with
           | Some (a, t') => k a t'
           | None => None
           end.

Definition emit (e : event) : io unit := fun t => Some (tt, t ++ [e]).

Definition history : io trace := fun t => Some (t, t).

Definition out_of_fuel {A} : io A := fun _ => None.

Declare Scope io_scope.
Delimit Scope io_scope with io.
Notation "x <~ m ;; k" := (io_bind m (fun x => k))
  (at level 100, m at next level, right associativity) : io_scope.
Notation "m ;;; k" := (io_bind m (fun _ => k))
  (at level 100, right associativity) : io_scope.
Open Scope io_scope.

(** Calls that leave this file. *)
Definition call_local_address (rt : runtime) (ab : addr) (ac : F90_Desc)
    (index : list Z) : io addr :=
  let a := __fort_local_address rt ab ac index in
  emit (Ev_local_address ab index a) ;;; io_ret a.

Definition call_getgbuf (rt : runtime) (len : Z) : io addr :=
  let b := __fort_getgbuf rt len in
  emit (Ev_getgbuf len b) ;;; io_ret b.

Definition call_f90io_rw (f : io_fn) (kind cnt str : Z) (adr : addr)
    (len : Z) : io Z :=
  h <~ history ;;
  let r := f h kind cnt str adr len in
  emit (Ev_f90io_rw kind cnt str adr len r) ;;; io_ret r.

(** [if (!z->stat) z->stat = z->f90io_rw(kind, cnt, str, adr, len);] *)
Definition guarded_rw (z : fio_parm) (kind cnt str : Z) (adr : addr)
    (len : Z) : io fio_parm :=
  if z_stat z =? 0 then
    r <~ call_f90io_rw (z_f90io_rw z) kind cnt str adr len ;;
    io_ret (set_stat z r)
  else io_ret z.

(** [for (i = z->repl.ndim; --i >= 0;) pc[i] = 0;] leaves the leading
    [ndim] cells of the cursor zero. *)
Definition zero_cursor (n : Z) : list Z := replicate (Z.to_nat n) 0.

(** [while (owner >= 0) { if (owner != GET_DIST_LCPU) __fort_rsendl(...);
     owner = __fort_next_owner(ac, &z->repl, pc, owner); }]
    Each iteration takes one unit of [fuel]; [owner_loop_spec] below shows
    that one unit is enough, the second owner being the negative
    sentinel. *)
Fixpoint owner_loop (rt : runtime) (fuel : nat) (z : fio_parm)
    (adr : addr) (str : Z) (pc : list Z) (owner : Z) : io unit :=
  if 0 <=? owner then
    match fuel with
    | O => out_of_fuel
    | S fuel' =>
        (if negb (owner =? GET_DIST_LCPU rt)
         then emit (Ev_rsendl owner adr (z_cnt z) str
                      (F90_KIND_G (z_ac z)) (F90_LEN_G (z_ac z)))
         else io_ret tt) ;;;
        owner_loop rt fuel' z adr str pc
          (__fort_next_owner (z_ac z) (z_repl z) pc owner)
    end
  else io_ret tt.

(** [static void __io_read(fio_parm *z)]; the result is the request as
    the routine leaves it.  The DEBUG blocks are not compiled. *)
Definition __io_read (rt : runtime) (fuel : nat) (z : fio_parm)
    : io fio_parm :=
  let ac := z_ac z in
  adr <~ call_local_address rt (z_ab z) ac (z_index z) ;;
  let str := z_str z in
  if LOCAL_MODE rt then
    guarded_rw z (F90_KIND_G ac) (z_cnt z)
      (int_mul (z_str z) (F90_LEN_G ac)) adr (F90_LEN_G ac)
  else
    let ioproc := GET_DIST_IOPROC rt in
    buf <~ call_getgbuf rt (int_mul (z_cnt z) (F90_LEN_G ac)) ;;
    if GET_DIST_LCPU rt =? ioproc then
      let adr' := if adr =? NULL then buf else adr in
      let str' := if adr =? NULL then 1 else str in
      z' <~ guarded_rw z (F90_KIND_G ac) (z_cnt z)
              (int_mul str' (F90_LEN_G ac)) adr' (F90_LEN_G ac) ;;
      let owner := __fort_owner ac (z_index z') in
      let pc := zero_cursor (ndim (z_repl z')) in
      owner_loop rt fuel z' adr' str' pc owner ;;;
      io_ret z'
    else if negb (adr =? NULL) then
      emit (Ev_rrecvl ioproc adr (z_cnt z) str
              (F90_KIND_G ac) (F90_LEN_G ac)) ;;;
      io_ret z
    else io_ret z.

(** [static void __io_write(fio_parm *z)]. *)
Definition __io_write (rt : runtime) (z : fio_parm) : io fio_parm :=
  let ac := z_ac z in
  adr <~ call_local_address rt (z_ab z) ac (z_index z) ;;
  let str := z_str z in
  guarded_rw z (F90_KIND_G ac) (z_cnt z)
    (int_mul str (F90_LEN_G ac)) adr (F90_LEN_G ac).

(** [z->fio_rw(z)] *)
Definition call_fio_rw (rt : runtime) (fuel : nat) (z : fio_parm)
    : io fio_parm :=
  match z_fio_rw z with
  | Io_read => __io_read rt fuel z
  | Io_write => __io_write rt z
  end.

(** Modelled from the spec: the body of [__fortio_loop], which is defined
    in another file of the runtime.  For each run in turn it stores the
    run in the request and "invokes the Per-Run Transfer". *)
Fixpoint fortio_loop_runs (rt : runtime) (fuel : nat) (z : fio_parm)
    (runs : list run) : io fio_parm :=
  match runs with
  | [] => io_ret z
  | r :: rest =>
      z' <~ call_fio_rw rt fuel (set_run z r) ;;
      fortio_loop_runs rt fuel z' rest
  end.

(** Modelled from the spec: [__fortio_loop] is defined in another file of
    the runtime.  The design document gives its contract: it "enumerates
    the full index space as a sequence of contiguous runs (count,
    stride)", each with its starting index, and "repeatedly invokes the
    Per-Run Transfer", the sequence being deterministic.  The runs
    themselves come from the runtime ([fortio_runs]). *)
Definition __fortio_loop (rt : runtime) (fuel : nat) (z : fio_parm)
    (dim : Z) : io fio_parm :=
  fortio_loop_runs rt fuel z (fortio_runs rt (z_ac z) dim).

(** The four assignments [z.ab = ...; z.ac = ac; z.f90io_rw = f90io_rw;
    z.fio_rw = ...;]. *)
Definition set_request (z : fio_parm) (ab : addr) (ac : F90_Desc)
    (f90io_rw : io_fn) (fio_rw : fio_routine) : fio_parm :=
  {| z_ab := ab; z_ac := ac; z_f90io_rw := f90io_rw; z_fio_rw := fio_rw;
     z_cnt := z_cnt z; z_str := z_str z; z_index := z_index z;
     z_stat := z_stat z; z_repl := z_repl z |}.

(** [z.cnt = cnt; z.str = str;] *)
Definition set_cnt_str (z : fio_parm) (cnt str : Z) : fio_parm :=
  {| z_ab := z_ab z; z_ac := z_ac z; z_f90io_rw := z_f90io_rw z;
     z_fio_rw := z_fio_rw z; z_cnt := cnt; z_str := str;
     z_index := z_index z; z_stat := z_stat z; z_repl := z_repl z |}.

Definition set_repl (z : fio_parm) (repl : repl_t) : fio_parm :=
  {| z_ab := z_ab z; z_ac := z_ac z; z_f90io_rw := z_f90io_rw z;
     z_fio_rw := z_fio_rw z; z_cnt := z_cnt z; z_str := z_str z;
     z_index := z_index z; z_stat := z_stat z; z_repl := repl |}.

(** [__fort_describe_replication(ac, &z.repl)] fills in [z.repl]. *)
Definition call_describe_replication (rt : runtime) (ac : F90_Desc)
    (z : fio_parm) : io fio_parm :=
  emit Ev_describe_replication ;;;
  io_ret (set_repl z (__fort_describe_replication rt ac)).

(** The scalar branch of [__fortio_main] (the tag is not [__DESC]). *)
Definition fortio_main_scalar (rt : runtime) (z : fio_parm) (ab : addr)
    (ac : F90_Desc) (rw : Z) (f90io_rw : io_fn) : io Z :=
  let kind := TYPEKIND rt ac in
  let ioproc := GET_DIST_IOPROC rt in
  let size_of_kind := GET_DIST_SIZE_OF rt kind in
  stat <~ (if LOCAL_MODE rt || (GET_DIST_LCPU rt =? ioproc)
           then call_f90io_rw f90io_rw kind 1 1 ab size_of_kind
           else io_ret (z_stat z)) ;;
  (if (rw =? 0) && negb (LOCAL_MODE rt)
   then emit (Ev_rbcstl ioproc ab 1 1 kind size_of_kind)
   else io_ret tt) ;;;
  io_ret (__fortio_stat_bcst stat).

(** The array branch of [__fortio_main] after the zero-size test. *)
Definition fortio_main_array (rt : runtime) (fuel : nat) (z : fio_parm)
    (ab : addr) (ac : F90_Desc) (rw : Z) (f90io_rw : io_fn) : io Z :=
  let z1 := set_request z
              (ab + int_mul (DIST_SCOFF_G ac) (F90_LEN_G ac)) ac f90io_rw
              (if rw =? 0 then Io_read else Io_write) in
  z2 <~ (if (rw =? 0) && negb (LOCAL_MODE rt)
         then call_describe_replication rt ac z1
         else io_ret z1) ;;
  z3 <~ (if 0 <? F90_RANK_G ac
         then __fortio_loop rt fuel z2 (F90_RANK_G ac)
         else call_fio_rw rt fuel (set_cnt_str z2 1 1)) ;;
  io_ret (__fortio_stat_bcst (z_stat z3)).

(** [int __fortio_main(ab, ac, rw, f90io_rw)]: base address, descriptor,
    0 for read and 1 for write, and the f90io function.
    [z0] is what the automatic variable [z] holds before the function
    assigns to it. *)
Definition __fortio_main (rt : runtime) (fuel : nat) (z0 : fio_parm)
    (ab : addr) (ac : F90_Desc) (rw : Z) (f90io_rw : io_fn) : io Z :=
  let z := set_stat z0 0 in
  if negb (F90_TAG_G ac =? __DESC rt) then
    fortio_main_scalar rt z ab ac rw f90io_rw
  else if F90_GSIZE_G ac <=? 0 then io_ret 0
  else fortio_main_array rt fuel z ab ac rw f90io_rw.

(** ** Reading a trace *)

Definition is_f90io_rw (e : event) : bool :=
  match e with Ev_f90io_rw _ _ _ _ _ _ => true | _ => false end.

Definition is_transport (e : event) : bool :=
  match e with
  | Ev_rsendl _ _ _ _ _ _ | Ev_rrecvl _ _ _ _ _ _
  | Ev_rbcstl _ _ _ _ _ _ => true
  | _ => false
  end.

Definition is_send (e : event) : bool :=
  match e with Ev_rsendl _ _ _ _ _ _ => true | _ => false end.


Definition is_resolver (e : event) : bool :=
  match e with Ev_local_address _ _ _ => true | _ => false end.

(** The first nonzero value an f90io call returned, 0 if there is none. *)
Fixpoint first_failure (t : trace) : Z :=
  match t with
  | [] => 0
  | Ev_f90io_rw _ _ _ _ _ r :: t' =>
      if r =? 0 then first_failure t' else r
  | _ :: t' => first_failure t'
  end.



(** No event of the trace satisfies [p]. *)
Definition none_of (p : event -> bool) (t : trace) : bool :=
  forallb (fun e => negb (p e)) t.

(** The status word after the events [t], when it was [stat] before: a
    recorded failure stays, otherwise the first failure of [t] is
    recorded. *)
Definition track (stat : Z) (t : trace) : Z :=
  if stat =? 0 then first_failure t else stat.


(** The fields of the request that the per-run routines never assign. *)
Record same_request (z z' : fio_parm) : Prop := mk_same {
  same_ab : z_ab z' = z_ab z;
  same_ac : z_ac z' = z_ac z;
  same_f90io_rw : z_f90io_rw z' = z_f90io_rw z;
  same_fio_rw : z_fio_rw z' = z_fio_rw z;
  same_repl : z_repl z' = z_repl z
}.

(** The same node seen as participant [cpu], whose resolver is [la]. *)
Definition as_participant (rt : runtime) (cpu : Z)
    (la : addr -> F90_Desc -> list Z -> addr) : runtime :=
  {| LOCAL_MODE := LOCAL_MODE rt;
     GET_DIST_LCPU := cpu;
     GET_DIST_IOPROC := GET_DIST_IOPROC rt;
     GET_DIST_SIZE_OF := GET_DIST_SIZE_OF rt;
     TYPEKIND := TYPEKIND rt;
     __DESC := __DESC rt;
     __fort_local_address := la;
     __fort_getgbuf := __fort_getgbuf rt;
     __fort_describe_replication := __fort_describe_replication rt;
     fortio_runs := fortio_runs rt |}.

(** ** Three statements of the design document, as it words them *)

(** "After a collective call returns, every participant observes the same
    status value", the one computed at the I/O coordinator: whatever a
    global read returns at the coordinator, it returns at participant
    [cpu] too. *)
Definition status_agreement : Prop :=
  forall rt fuel z0 z0' ab ab' ac f cpu la st t st' t',
    LOCAL_MODE rt = false ->
    GET_DIST_LCPU rt = GET_DIST_IOPROC rt ->
    cpu <> GET_DIST_IOPROC rt ->
    __fortio_main rt fuel z0 ab ac 0 f [] = Some (st, t) ->
    __fortio_main (as_participant rt cpu la) fuel z0' ab' ac 0 f []
      = Some (st', t') ->
    st' = st.

(** "Single-participant (local) mode, scalar, write: ioCallback invoked
    exactly once with count=1, stride·elementLength = elementLength": the
    only event is one f90io call whose third argument equals its
    fifth. *)
Definition scalar_write_stride_is_length : Prop :=
  forall rt fuel z0 ab ac rw f t,
    F90_TAG_G ac <> __DESC rt -> LOCAL_MODE rt = true -> rw <> 0 ->
    exists st kind adr len r,
      __fortio_main rt fuel z0 ab ac rw f t
      = Some (st, t ++ [Ev_f90io_rw kind 1 len adr len r]).


End DescRW.

(* ===================================================================== *)
(** * Concrete sets and requests *)
(* ===================================================================== *)

Module Samples.
Import CInt FastSet DescRW.

(** Freshly allocated cells hold 7 (member array) and 0 (index array): the
    stale index cells all point at the first member. *)
Definition junk : fresh_cells :=
  {| fresh_member := fun _ => 7; fresh_index := fun _ => 0 |}.

Definition blank : fastset :=
  {| members := 3; limit := 1; member := []; index := [] |}.

(** The set after [fastset_add 5]. *)
Definition set_5 : fastset :=
  {| members := 1; limit := 6;
     member := [5; 7; 7; 7; 7; 7]; index := [0; 0; 0; 0; 0; 0] |}.

(** The set after [fastset_add 5; fastset_add 2]. *)
Definition set_5_2 : fastset :=
  {| members := 2; limit := 6;
     member := [5; 2; 7; 7; 7; 7]; index := [0; 0; 1; 0; 0; 0] |}.

(** Participant 1 of a job whose I/O coordinator is participant 1; it
    holds no element itself (its resolver answers NULL), 4-byte kinds,
    [__DESC] is 35, and the index space splits into two runs. *)
Definition coordinator : runtime :=
  {| LOCAL_MODE := false;
     GET_DIST_LCPU := 1;
     GET_DIST_IOPROC := 1;
     GET_DIST_SIZE_OF := fun _ => 4;
     TYPEKIND := fun ac => F90_TAG_G ac;
     __DESC := 35;
     __fort_local_address := fun _ _ _ => NULL;
     __fort_getgbuf := fun _ => 4096;
     __fort_describe_replication := fun _ => {| ndim := 1 |};
     fortio_runs := fun _ _ => [mk_run [1] 2 1; mk_run [3] 2 1] |}.

(** Participant 0 of the same job, which holds the data at [ab + 8]. *)
Definition peer : runtime :=
  as_participant coordinator 0 (fun ab _ _ => ab + 8).

(** The same node running alone. *)
Definition alone : runtime :=
  {| LOCAL_MODE := true;
     GET_DIST_LCPU := 0;
     GET_DIST_IOPROC := 0;
     GET_DIST_SIZE_OF := fun _ => 4;
     TYPEKIND := fun ac => F90_TAG_G ac;
     __DESC := 35;
     __fort_local_address := fun ab _ _ => ab + 8;
     __fort_getgbuf := fun _ => 4096;
     __fort_describe_replication := fun _ => {| ndim := 1 |};
     fortio_runs := fun _ _ => [mk_run [1] 2 1; mk_run [3] 2 1] |}.

(** An f90io function that fails with code 5 on every call. *)
Definition fails_5 : io_fn := fun _ _ _ _ _ _ => 5.

(** A four-element array of 4-byte integers, an empty array, and a
    scalar of kind 25. *)
Definition vector : F90_Desc :=
  {| F90_TAG_G := 35; F90_RANK_G := 1; F90_KIND_G := 25; F90_LEN_G := 4;
     F90_GSIZE_G := 4; DIST_SCOFF_G := 0 |}.

Definition empty_vector : F90_Desc :=
  {| F90_TAG_G := 35; F90_RANK_G := 1; F90_KIND_G := 25; F90_LEN_G := 4;
     F90_GSIZE_G := 0; DIST_SCOFF_G := 0 |}.

Definition scalar : F90_Desc :=
  {| F90_TAG_G := 25; F90_RANK_G := 0; F90_KIND_G := 0; F90_LEN_G := 0;
     F90_GSIZE_G := 0; DIST_SCOFF_G := 0 |}.

(** What the stack holds where [z] is allocated. *)
Definition stack_junk : fio_parm :=
  {| z_ab := 77; z_ac := scalar; z_f90io_rw := fails_5;
     z_fio_rw := Io_read; z_cnt := 77; z_str := 77; z_index := [77];
     z_stat := 77; z_repl := {| ndim := 77 |} |}.

(** A read request for the run of two elements at index 1, with the
    failure code 9 already recorded, and the same request before any
    failure. *)
Definition failed_read : fio_parm :=
  {| z_ab := 1000; z_ac := vector; z_f90io_rw := fails_5;
     z_fio_rw := Io_read; z_cnt := 2; z_str := 1; z_index := [1];
     z_stat := 9; z_repl := {| ndim := 1 |} |}.

Definition clean_read : fio_parm := set_stat failed_read 0.

Definition failed_write : fio_parm :=
  {| z_ab := 1000; z_ac := vector; z_f90io_rw := fails_5;
     z_fio_rw := Io_write; z_cnt := 2; z_str := 1; z_index := [1];
     z_stat := 9; z_repl := {| ndim := 1 |} |}.

Definition clean_write : fio_parm := set_stat failed_write 0.

End Samples.

(* ===================================================================== *)
(** * The events of a run, of a loop and of a call *)
(* ===================================================================== *)

Module RunTrace.
Import CInt DescRW.

(** The values the f90io calls of a trace returned, in order. *)
Fixpoint io_results (t : trace) : list Z :=
  match t with
  | [] => []
  | Ev_f90io_rw _ _ _ _ _ r :: t' => r :: io_results t'
  | _ :: t' => io_results t'
  end.

(** An event that stays on this participant: an address resolution or an
    f90io call. *)
Definition is_local_call (e : event) : bool :=
  is_resolver e || is_f90io_rw e.

(** The events of one run, read off [__io_read] and [__io_write]: what the
    run adds to the trace [t] when it starts from the request [z]. *)
Definition run_resolved (rt : runtime) (z : fio_parm) : event :=
  Ev_local_address (z_ab z) (z_index z)
    (__fort_local_address rt (z_ab z) (z_ac z) (z_index z)).

Definition run_buffer (rt : runtime) (z : fio_parm) : event :=
  Ev_getgbuf (int_mul (z_cnt z) (F90_LEN_G (z_ac z)))
    (__fort_getgbuf rt (int_mul (z_cnt z) (F90_LEN_G (z_ac z)))).

Definition run_source (rt : runtime) (z : fio_parm) : addr :=
  if __fort_local_address rt (z_ab z) (z_ac z) (z_index z) =? NULL
  then __fort_getgbuf rt (int_mul (z_cnt z) (F90_LEN_G (z_ac z)))
  else __fort_local_address rt (z_ab z) (z_ac z) (z_index z).

Definition run_stride (rt : runtime) (z : fio_parm) : Z :=
  if __fort_local_address rt (z_ab z) (z_ac z) (z_index z) =? NULL
  then 1 else z_str z.

Definition run_call (z : fio_parm) (t : trace) (adr : addr) (str : Z)
    : trace :=
  if z_stat z =? 0
  then [Ev_f90io_rw (F90_KIND_G (z_ac z)) (z_cnt z)
          (int_mul str (F90_LEN_G (z_ac z))) adr (F90_LEN_G (z_ac z))
          (z_f90io_rw z t (F90_KIND_G (z_ac z)) (z_cnt z)
             (int_mul str (F90_LEN_G (z_ac z))) adr (F90_LEN_G (z_ac z)))]
  else [].

Definition run_sends (rt : runtime) (z : fio_parm) : trace :=
  if GET_DIST_LCPU rt =? 0 then []
  else [Ev_rsendl 0 (run_source rt z) (z_cnt z) (run_stride rt z)
          (F90_KIND_G (z_ac z)) (F90_LEN_G (z_ac z))].

Definition run_recvs (rt : runtime) (z : fio_parm) : trace :=
  if __fort_local_address rt (z_ab z) (z_ac z) (z_index z) =? NULL then []
  else [Ev_rrecvl (GET_DIST_IOPROC rt)
          (__fort_local_address rt (z_ab z) (z_ac z) (z_index z))
          (z_cnt z) (z_str z) (F90_KIND_G (z_ac z)) (F90_LEN_G (z_ac z))].

Definition run_events (rt : runtime) (z : fio_parm) (t : trace) : trace :=
  match z_fio_rw z, LOCAL_MODE rt with
  | Io_read, false =>
      if GET_DIST_LCPU rt =? GET_DIST_IOPROC rt then
        [run_resolved rt z; run_buffer rt z]
        ++ run_call z (t ++ [run_resolved rt z; run_buffer rt z])
             (run_source rt z) (run_stride rt z)
        ++ run_sends rt z
      else [run_resolved rt z; run_buffer rt z] ++ run_recvs rt z
  | _, _ =>
      run_resolved rt z
      :: run_call z (t ++ [run_resolved rt z])
           (__fort_local_address rt (z_ab z) (z_ac z) (z_index z)) (z_str z)
  end.

(** The events of a sequence of runs. *)
Fixpoint loop_events (rt : runtime) (z : fio_parm) (runs : list run)
    (t : trace) : trace :=
  match runs with
  | [] => []
  | r :: rest =>
      let e := run_events rt (set_run z r) t in
      e ++ loop_events rt (set_stat (set_run z r) (track (z_stat z) e)) rest
             (t ++ e)
  end.

(** The events of the array branch of [__fortio_main]. *)
Definition array_request (z0 : fio_parm) (ab : addr) (ac : F90_Desc)
    (rw : Z) (f : io_fn) : fio_parm :=
  set_request (set_stat z0 0)
    (ab + int_mul (DIST_SCOFF_G ac) (F90_LEN_G ac)) ac f
    (if rw =? 0 then Io_read else Io_write).

Definition array_events (rt : runtime) (z0 : fio_parm) (ab : addr)
    (ac : F90_Desc) (rw : Z) (f : io_fn) (t : trace) : trace :=
  let z1 := array_request z0 ab ac rw f in
  let global := (rw =? 0) && negb (LOCAL_MODE rt) in
  let pre := if global then [Ev_describe_replication] else [] in
  let z2 := if global then set_repl z1 (__fort_describe_replication rt ac)
            else z1 in
  pre ++ (if 0 <? F90_RANK_G ac
          then loop_events rt z2 (fortio_runs rt ac (F90_RANK_G ac)) (t ++ pre)
          else run_events rt (set_cnt_str z2 1 1) (t ++ pre)).

(** The owner loop of a read run at the coordinator has the fuel it
    needs; no other run uses any. *)
Definition enough (rt : runtime) (fuel : nat) (rw : fio_routine) : Prop :=
  rw = Io_write \/ LOCAL_MODE rt = true \/ (1 <= fuel)%nat.

(** A request with another per-run routine. *)
Definition with_routine (z : fio_parm) (rw : fio_routine) : fio_parm :=
  set_request z (z_ab z) (z_ac z) (z_f90io_rw z) rw.

(** The results of the f90io calls of one call of [__fortio_main] that
    returns [st]: zeros, followed by [st] itself when it is a failure. *)
Definition halted (st : Z) (l : list Z) : Prop :=
  exists n : nat, l = replicate n 0 ++ (if st =? 0 then [] else [st]).

(** A job whose I/O coordinator is participant 0, seen from participant 0,
    which holds no element, and from participant 1, which holds the data
    at [ab + 8]. *)
Definition root : runtime :=
  as_participant
    {| LOCAL_MODE := false; GET_DIST_LCPU := 0; GET_DIST_IOPROC := 0;
       GET_DIST_SIZE_OF := fun _ => 4; TYPEKIND := fun ac => F90_TAG_G ac;
       __DESC := 35;
       __fort_local_address := fun _ _ _ => NULL;
       __fort_getgbuf := fun _ => 4096;
       __fort_describe_replication := fun _ => {| ndim := 1 |};
       fortio_runs := fun _ _ => [mk_run [1] 2 1; mk_run [3] 2 1] |}
    0 (fun _ _ _ => NULL).

Definition holder (ab : addr) (ac : F90_Desc) (index : list Z) : addr :=
  ab + 8.

(** An f90io function that succeeds once and fails with code 7 from the
    second call on. *)
Definition fails_second : io_fn :=
  fun t _ _ _ _ _ =>
    match io_results t with [] => 0 | _ :: _ => 7 end.

(** A descriptor of rank 0 with the tag [__DESC]. *)
Definition rank0 : F90_Desc :=
  {| F90_TAG_G := 35; F90_RANK_G := 0; F90_KIND_G := 25; F90_LEN_G := 4;
     F90_GSIZE_G := 1; DIST_SCOFF_G := 3 |}.

End RunTrace.

(* ===================================================================== *)
(** * Properties of fastset.h *)
(* ===================================================================== *)

Section fastset_properties.
Import CInt FastSet.

Lemma to_unsigned_id x : is_unsigned x -> to_unsigned x = x.
Proof. unfold is_unsigned, to_unsigned, UINT_MAX. intros H. apply Z.mod_small. lia. Qed.

Lemma to_unsigned_range x : is_unsigned (to_unsigned x).
Proof.
  unfold is_unsigned, to_unsigned, UINT_MAX.
  pose proof (Z.mod_pos_bound x 4294967296). lia.
Qed.

Lemma rd_Some_bounds a i v : rd a i = Some v -> 0 <= i < Z.of_nat (length a).
Proof.
  unfold rd. destruct (Z.ltb_spec i 0) as [Hlo|Hlo]; [done|].
  intros H%lookup_lt_Some. lia.
Qed.

Lemma rd_is_Some a i : 0 <= i < Z.of_nat (length a) -> exists v, rd a i = Some v.
Proof.
  intros H. unfold rd. destruct (Z.ltb_spec i 0) as [Hlo|Hlo]; [lia|].
  destruct (lookup_lt_is_Some_2 a (Z.to_nat i)) as [v Hv]; [lia|]. eauto.
Qed.

Lemma rd_Forall (P : Z -> Prop) a i v : Forall P a -> rd a i = Some v -> P v.
Proof.
  unfold rd. destruct (Z.ltb_spec i 0) as [Hlo|Hlo]; [done|].
  intros HP Hl. eapply Forall_lookup_1; eauto.
Qed.

Lemma wr_total a i v : 0 <= i < Z.of_nat (length a) -> exists a', wr a i v = Some a'.
Proof.
  intros H. unfold wr.
  destruct (Z.leb_spec 0 i) as [Hlo|Hlo]; [|lia]. destruct (Z.ltb_spec i (Z.of_nat (length a))) as [Hhi|Hhi]; [|lia].
  simpl. eauto.
Qed.

Lemma wr_inv a i v a' :
  wr a i v = Some a' -> 0 <= i < Z.of_nat (length a) /\ a' = <[Z.to_nat i := v]> a.
Proof.
  unfold wr.
  destruct (Z.leb_spec 0 i) as [Hlo|Hlo]; simpl; [|done].
  destruct (Z.ltb_spec i (Z.of_nat (length a))) as [Hhi|Hhi]; [|done].
  intros [= <-]. split; [lia|done].
Qed.

Lemma wr_length a i v a' : wr a i v = Some a' -> length a' = length a.
Proof. intros [_ ->]%wr_inv. apply length_insert. Qed.

Lemma wr_rd_eq a i v a' : wr a i v = Some a' -> rd a' i = Some v.
Proof.
  intros [Hi ->]%wr_inv. unfold rd. destruct (Z.ltb_spec i 0) as [Hlo|Hlo]; [lia|].
  apply list_lookup_insert_eq. lia.
Qed.

Lemma wr_rd_ne a i v a' j : wr a i v = Some a' -> j <> i -> rd a' j = rd a j.
Proof.
  intros [Hi ->]%wr_inv Hne. unfold rd. destruct (Z.ltb_spec j 0) as [Hlo|Hlo]; [done|].
  apply list_lookup_insert_ne. lia.
Qed.

Lemma wr_Forall (P : Z -> Prop) a i v a' :
  Forall P a -> P v -> wr a i v = Some a' -> Forall P a'.
Proof. intros HP Hv [_ ->]%wr_inv. by apply Forall_insert. Qed.

Lemma grown_length a junk n :
  Z.of_nat (length a) <= n -> Z.of_nat (length (grown a junk n)) = n.
Proof.
  intros H. unfold grown. rewrite length_app, length_fmap, length_seq. lia.
Qed.

Lemma grown_rd a junk n i v : rd a i = Some v -> rd (grown a junk n) i = Some v.
Proof.
  unfold rd, grown. destruct (Z.ltb_spec i 0) as [Hlo|Hlo]; [done|].
  intros H. by apply lookup_app_l_Some.
Qed.

Lemma grown_rd_old a junk n i :
  i < Z.of_nat (length a) -> rd (grown a junk n) i = rd a i.
Proof.
  unfold rd, grown. destruct (Z.ltb_spec i 0) as [Hlo|Hlo]; [done|].
  intros H. apply lookup_app_l. lia.
Qed.

Lemma grown_Forall a junk n :
  Forall is_unsigned a -> Forall is_unsigned (grown a junk n).
Proof.
  intros H. unfold grown. apply Forall_app. split; [done|].
  apply Forall_fmap, Forall_forall. intros k _. apply to_unsigned_range.
Qed.


Lemma live_lookup s i y :
  live s !! i = Some y <->
  Z.of_nat i < members s /\ rd (member s) (Z.of_nat i) = Some y.
Proof.
  unfold live, rd. rewrite lookup_take_Some, Nat2Z.id.
  destruct (Z.ltb_spec (Z.of_nat i) 0) as [Hlo|Hlo]; [lia|].
  split; intros [? ?]; split; (done || lia).
Qed.

Lemma elem_of_live s y : y ∈ live s <-> is_member s y.
Proof.
  rewrite list_elem_of_lookup. split.
  - intros [i [Hlt Hrd]%live_lookup]. exists (Z.of_nat i). split; [lia|done].
  - intros (p & Hp & Hrd). exists (Z.to_nat p). apply live_lookup.
    rewrite Z2Nat.id by lia. split; [lia|done].
Qed.

Lemma live_NoDup s : distinct_members s -> NoDup (live s).
Proof.
  intros Hd. apply NoDup_alt. intros i j y [Hi Hri]%live_lookup [Hj Hrj]%live_lookup.
  apply Nat2Z.inj. eapply Hd; eauto; lia.
Qed.

Lemma live_length s : well_formed s -> Z.of_nat (length (live s)) = members s.
Proof.
  intros Hwf. unfold live. rewrite length_take_le.
  - pose proof (wf_members _ Hwf). lia.
  - pose proof (wf_members _ Hwf). pose proof (wf_member_cells _ Hwf). lia.
Qed.

Lemma member_unsigned s y : well_formed s -> is_member s y -> is_unsigned y.
Proof.
  intros Hwf (p & _ & Hrd). eapply rd_Forall; [apply (wf_member_unsigned _ Hwf)|eauto].
Qed.

(** A value below the limit that is not in the set leaves a free slot: the
    members are distinct values below the limit. *)
Lemma members_below_limit s x :
  rep_inv s -> 0 <= x < limit s -> ~ is_member s x -> members s < limit s.
Proof.
  intros [Hwf Hd _] Hx Hnm.
  assert (Hsub : x :: live s ⊆+ seqZ 0 (limit s)).
  { apply NoDup_submseteq.
    - apply NoDup_cons_2; [by rewrite elem_of_live | by apply live_NoDup].
    - intros y. rewrite elem_of_cons, elem_of_seqZ, elem_of_live.
      intros [-> | Hy]; [lia|].
      pose proof (member_unsigned _ _ Hwf Hy) as [? _].
      pose proof (wf_below_limit _ Hwf _ Hy). lia. }
  apply submseteq_length in Hsub. rewrite length_seqZ in Hsub. simpl in Hsub.
  pose proof (live_length _ Hwf). lia.
Qed.

(** ** Membership test *)

Lemma contains_member s x :
  rep_inv s -> is_member s x -> fastset_contains s x = Some true.
Proof.
  intros [Hwf Hd Hi] Hm.
  destruct (Hi _ Hm) as (p & Hix & Hp & Hrd).
  pose proof (member_unsigned _ _ Hwf Hm) as Hu.
  pose proof (wf_below_limit _ Hwf _ Hm) as Hlt.
  unfold fastset_contains. rewrite (to_unsigned_id _ Hu).
  destruct (Z.ltb_spec x (limit s)) as [_|?]; [|lia].
  rewrite Hix. simpl.
  destruct (Z.ltb_spec p (members s)) as [_|?]; [|lia].
  rewrite Hrd. simpl. by rewrite Z.eqb_refl.
Qed.

Lemma contains_true_inv s x :
  well_formed s -> fastset_contains s x = Some true ->
  is_unsigned x /\ x < limit s /\ is_member s x.
Proof.
  intros Hwf. unfold fastset_contains.
  destruct (Z.ltb_spec (to_unsigned x) (limit s)) as [Hlt|?]; [|done].
  destruct (rd (index s) x) as [idx|] eqn:Hix; [simpl|done].
  destruct (Z.ltb_spec idx (members s)) as [Hidx|?]; [|done].
  destruct (rd (member s) idx) as [m|] eqn:Hm; [simpl|done].
  intros [= Heq%Z.eqb_eq].
  apply rd_Some_bounds in Hix as Hxb. rewrite (wf_index_cells _ Hwf) in Hxb.
  pose proof (wf_limit _ Hwf).
  assert (Hu : is_unsigned x) by (unfold is_unsigned; lia).
  rewrite (to_unsigned_id _ Hu) in Heq. subst m.
  split; [done|]. split; [lia|].
  exists idx. split; [|done]. apply rd_Some_bounds in Hm. lia.
Qed.

Lemma contains_total s x :
  well_formed s -> is_unsigned x -> exists b, fastset_contains s x = Some b.
Proof.
  intros Hwf Hx. unfold fastset_contains. rewrite (to_unsigned_id _ Hx).
  destruct (Z.ltb_spec x (limit s)) as [Hlt|?]; [|eauto].
  destruct (rd_is_Some (index s) x) as [idx Hix].
  { rewrite (wf_index_cells _ Hwf). unfold is_unsigned in Hx. lia. }
  rewrite Hix. simpl.
  destruct (Z.ltb_spec idx (members s)) as [Hidx|?]; [|eauto].
  pose proof (rd_Forall _ _ _ _ (wf_index_unsigned _ Hwf) Hix) as [? _].
  destruct (rd_is_Some (member s) idx) as [m Hm].
  { rewrite (wf_member_cells _ Hwf). pose proof (wf_members _ Hwf). lia. }
  rewrite Hm. simpl. eauto.
Qed.

(** ** Reallocation *)

Lemma resize_spec junk s h :
  rep_inv s -> is_unsigned h ->
  rep_inv (fastset_resize junk s h) /\
  members (fastset_resize junk s h) = members s /\
  limit (fastset_resize junk s h) = Z.max (limit s) h /\
  (forall y, is_member (fastset_resize junk s h) y <-> is_member s y).
Proof.
  intros [Hwf Hd Hi] Hh. unfold fastset_resize.
  destruct (Z.ltb_spec (limit s) h) as [Hlt|Hge].
  2:{ split; [done|]. split; [done|]. split; [lia|done]. }
  destruct Hwf as [Hl Hm Hmc Hic Hmu Hiu Hbl].
  assert (Hold : forall p, p < members s ->
            rd (grown (member s) (fresh_member junk) h) p = rd (member s) p).
  { intros p Hp. apply grown_rd_old. lia. }
  assert (Hmem : forall y,
            is_member (mk_fastset (members s) h
                         (grown (member s) (fresh_member junk) h)
                         (grown (index s) (fresh_index junk) h)) y
            <-> is_member s y).
  { intros y. unfold is_member. simpl.
    split; intros (p & Hp & Hrd); exists p; (split; [done|]).
    - by rewrite Hold in Hrd by lia.
    - by rewrite Hold by lia. }
  split; [|repeat split; simpl; try done; try lia; apply Hmem].
  constructor.
  - constructor; simpl.
    + unfold is_unsigned in Hh. lia.
    + lia.
    + apply grown_length. lia.
    + apply grown_length. lia.
    + by apply grown_Forall.
    + by apply grown_Forall.
    + intros x Hx%Hmem. specialize (Hbl _ Hx). lia.
  - intros p q x Hp Hq. simpl in *. rewrite !Hold by lia. by apply Hd.
  - intros x Hx%Hmem. destruct (Hi _ Hx) as (p & Hix & Hp & Hrd).
    exists p. simpl. split; [by apply grown_rd|]. split; [done|].
    by apply grown_rd.
Qed.

(** ** Insertion *)

Lemma add_store_spec s x :
  rep_inv s -> 0 <= x < limit s -> ~ is_member s x ->
  exists s', fastset_add_store s x = Some s' /\ rep_inv s' /\
    members s' = members s + 1 /\ limit s' = limit s /\
    (forall y, is_member s' y <-> y = x \/ is_member s y).
Proof.
  intros Hinv Hx Hnm.
  pose proof (members_below_limit _ _ Hinv Hx Hnm) as Hfree.
  destruct Hinv as [Hwf Hd Hi].
  destruct Hwf as [Hl Hm Hmc Hic Hmu Hiu Hbl].
  destruct (wr_total (index s) x (members s)) as [index' Hwi]; [lia|].
  destruct (wr_total (member s) (members s) x) as [member' Hwm]; [lia|].
  assert (Hn : to_unsigned (members s + 1) = members s + 1).
  { apply to_unsigned_id. unfold is_unsigned. lia. }
  exists (mk_fastset (members s + 1) (limit s) member' index').
  split.
  { unfold fastset_add_store. rewrite Hwi. simpl. rewrite Hwm. simpl.
    by rewrite Hn. }
  assert (Hnew : rd member' (members s) = Some x) by (by eapply wr_rd_eq).
  assert (Hold : forall p, p <> members s -> rd member' p = rd (member s) p).
  { intros p Hp. by eapply wr_rd_ne. }
  assert (Hmem : forall y,
            is_member (mk_fastset (members s + 1) (limit s) member' index') y
            <-> y = x \/ is_member s y).
  { intros y. unfold is_member. simpl. split.
    - intros (p & Hp & Hrd). destruct (decide (p = members s)) as [->|Hne].
      + left. congruence.
      + right. exists p. rewrite Hold in Hrd by done. split; [lia|done].
    - intros [-> | (p & Hp & Hrd)].
      + exists (members s). split; [lia|done].
      + exists p. split; [lia|]. rewrite Hold by lia. done. }
  split; [|split; [done|]; split; [done|]; exact Hmem].
  constructor.
  - constructor; simpl; try lia.
    + apply wr_length in Hwm. lia.
    + apply wr_length in Hwi. lia.
    + eapply wr_Forall; [exact Hmu| |exact Hwm]. unfold is_unsigned. lia.
    + eapply wr_Forall; [exact Hiu| |exact Hwi]. unfold is_unsigned. lia.
    + intros y [-> | Hy]%Hmem; [lia|by apply Hbl].
  - intros p q y Hp Hq Hrp Hrq. simpl in *.
    destruct (decide (p = members s)) as [->|Hnp];
      destruct (decide (q = members s)) as [->|Hnq]; [done| | |].
    + rewrite Hnew in Hrp. injection Hrp as <-. rewrite Hold in Hrq by done.
      destruct Hnm. exists q. split; [lia|done].
    + rewrite Hnew in Hrq. injection Hrq as <-. rewrite Hold in Hrp by done.
      destruct Hnm. exists p. split; [lia|done].
    + rewrite Hold in Hrp, Hrq by done. eapply Hd; eauto; lia.
  - intros y [-> | Hy]%Hmem; simpl.
    + exists (members s). split; [by eapply wr_rd_eq|]. split; [lia|done].
    + destruct (Hi _ Hy) as (p & Hix & Hp & Hrd).
      exists p. split.
      * erewrite wr_rd_ne; [done|exact Hwi|]. intros ->. done.
      * split; [lia|]. rewrite Hold by lia. done.
Qed.

Lemma add_spec junk s x :
  rep_inv s -> 0 <= x < UINT_MAX ->
  exists s', fastset_add junk s x = Some s' /\ rep_inv s' /\
    limit s <= limit s' /\
    (forall y, is_member s' y <-> y = x \/ is_member s y) /\
    ((is_member s x /\ members s' = members s) \/
     (~ is_member s x /\ members s' = members s + 1)).
Proof.
  intros Hinv Hx. unfold fastset_add, fastset_add_probe.
  destruct (Z.leb_spec (limit s) x) as [Hge|Hlt].
  - (* beyond the limit: reallocate, then store *)
    assert (Hnm : ~ is_member s x).
    { intros Hm. pose proof (wf_below_limit _ (inv_wf _ Hinv) _ Hm). lia. }
    assert (Hh : is_unsigned (x + 1)) by (unfold is_unsigned; lia).
    rewrite (to_unsigned_id _ Hh). simpl.
    destruct (resize_spec junk s (x + 1) Hinv Hh) as (Hinv1 & Hm1 & Hl1 & Hmem1).
    destruct (add_store_spec (fastset_resize junk s (x + 1)) x Hinv1)
      as (s' & Hst & Hinv' & Hms & Hls & Hmem'); [lia|by rewrite Hmem1|].
    exists s'. split; [done|]. split; [done|]. split; [lia|]. split.
    + intros y. rewrite Hmem', Hmem1. done.
    + right. split; [done|lia].
  - destruct (rd_is_Some (index s) x) as [idx Hix].
    { rewrite (wf_index_cells _ (inv_wf _ Hinv)). lia. }
    rewrite Hix. simpl.
    assert (Hcase : is_member s x /\ rd (member s) idx = Some x /\ idx < members s
                    \/ ~ is_member s x /\
                       (members s <= idx \/
                        exists m, rd (member s) idx = Some m /\ m <> x)).
    { destruct (Z.lt_ge_cases idx (members s)) as [Hidx|Hidx].
      - pose proof (rd_Forall _ _ _ _ (wf_index_unsigned _ (inv_wf _ Hinv)) Hix)
          as [? _].
        destruct (rd_is_Some (member s) idx) as [m Hm].
        { rewrite (wf_member_cells _ (inv_wf _ Hinv)).
          pose proof (wf_members _ (inv_wf _ Hinv)). lia. }
        destruct (decide (m = x)) as [->|Hne].
        + left. split; [|done]. exists idx. split; [lia|done].
        + right. split; [|eauto].
          intros Hmx. destruct (inv_indexed _ Hinv _ Hmx) as (p & Hp1 & _ & Hp3).
          congruence.
      - right. split; [|by left].
        intros Hmx. destruct (inv_indexed _ Hinv _ Hmx) as (p & Hp1 & Hp2 & _).
        assert (p = idx) by congruence. lia. }
    destruct Hcase as [(Hm & Hrd & Hidx) | (Hnm & Hwhy)].
    + destruct (Z.ltb_spec idx (members s)) as [_|?]; [|lia].
      rewrite Hrd. simpl. rewrite Z.eqb_refl. simpl.
      exists s. split; [done|]. split; [done|]. split; [lia|]. split.
      * intros y. split; [by right|]. by intros [->|?].
      * left. done.
    + destruct (add_store_spec s x Hinv) as (s' & Hst & Hinv' & Hms & Hls & Hmem');
        [lia|done|].
      exists s'. split.
      { destruct Hwhy as [Hidx | (m & Hm & Hne)].
        - destruct (Z.ltb_spec idx (members s)) as [?|_]; [lia|]. done.
        - destruct (Z.ltb_spec idx (members s)) as [_|_]; [|done].
          rewrite Hm. simpl. destruct (Z.eqb_spec m x) as [?|_]; done. }
      split; [done|]. split; [lia|]. split; [done|]. right. done.
Qed.

Lemma add_overflow junk s x :
  well_formed s -> x = UINT_MAX -> fastset_add junk s x = None.
Proof.
  intros Hwf ->. unfold fastset_add, fastset_add_probe.
  pose proof (wf_limit _ Hwf) as Hl.
  destruct (Z.leb_spec (limit s) UINT_MAX) as [_|?]; [|lia].
  simpl. unfold fastset_resize.
  replace (to_unsigned (UINT_MAX + 1)) with 0 by done.
  destruct (Z.ltb_spec (limit s) 0) as [?|_]; [lia|].
  unfold fastset_add_store, wr. rewrite (wf_index_cells _ Hwf).
  destruct (Z.ltb_spec UINT_MAX (limit s)) as [?|_]; [lia|].
  by rewrite andb_false_r.
Qed.

(** ** Removal *)

Lemma remove_member s x :
  rep_inv s -> is_member s x ->
  exists s', fastset_remove s x = Some s' /\ rep_inv s' /\
    members s' = members s - 1 /\ limit s' = limit s /\
    (forall y, is_member s' y <-> y <> x /\ is_member s y).
Proof.
  intros Hinv Hm.
  pose proof (member_unsigned _ _ (inv_wf _ Hinv) Hm) as Hu.
  destruct Hinv as [Hwf Hd Hi].
  destruct (Hi _ Hm) as (idx & Hix & Hidx & Hrd).
  destruct Hwf as [Hl Hmb Hmc Hic Hmu Hiu Hbl].
  pose proof (Hbl _ Hm) as Hxl.
  set (n := members s - 1).
  assert (Hn : to_unsigned n = n).
  { apply to_unsigned_id. unfold is_unsigned. lia. }
  destruct (rd_is_Some (member s) n) as [last Hlast]; [lia|].
  assert (Hlm : is_member s last) by (exists n; split; [lia|done]).
  pose proof (Hbl _ Hlm) as Hll.
  pose proof (rd_Forall _ _ _ _ Hmu Hlast) as Hlu.
  destruct (wr_total (index s) last idx) as [index' Hwi].
  { unfold is_unsigned in Hlu. lia. }
  destruct (wr_total (member s) idx last) as [member' Hwm]; [lia|].
  exists (mk_fastset n (limit s) member' index').
  split.
  { unfold fastset_remove. rewrite (to_unsigned_id _ Hu).
    destruct (Z.ltb_spec x (limit s)) as [_|?]; [|lia].
    rewrite Hix. simpl.
    destruct (Z.ltb_spec idx (members s)) as [_|?]; [|lia].
    rewrite Hrd. simpl. rewrite Z.eqb_refl. fold n. rewrite Hn, Hlast. simpl.
    rewrite Hwi. simpl. rewrite Hwm. done. }
  assert (Hnew : rd member' idx = Some last) by (by eapply wr_rd_eq).
  assert (Hold : forall p, p <> idx -> rd member' p = rd (member s) p).
  { intros p Hp. by eapply wr_rd_ne. }
  assert (Hmem : forall y,
            is_member (mk_fastset n (limit s) member' index') y
            <-> y <> x /\ is_member s y).
  { intros y. unfold is_member. simpl. split.
    - intros (p & Hp & Hr). destruct (decide (p = idx)) as [->|Hne].
      + rewrite Hnew in Hr. injection Hr as <-. split; [|done].
        intros ->. assert (idx = n) by (eapply Hd; eauto; lia). lia.
      + rewrite Hold in Hr by done. split; [|exists p; split; [lia|done]].
        intros ->. destruct Hne. eapply Hd; eauto; lia.
    - intros [Hne (p & Hp & Hr)].
      assert (Hpi : p <> idx) by (intros ->; congruence).
      destruct (decide (p = n)) as [->|Hpn].
      + exists idx. split; [lia|]. congruence.
      + exists p. split; [lia|]. by rewrite Hold. }
  split; [|split; [done|]; split; [done|]; exact Hmem].
  constructor.
  - constructor; simpl; try lia.
    + apply wr_length in Hwm. lia.
    + apply wr_length in Hwi. lia.
    + eapply wr_Forall; [exact Hmu|exact Hlu|exact Hwm].
    + eapply wr_Forall; [exact Hiu| |exact Hwi]. unfold is_unsigned. lia.
    + intros y [_ Hy]%Hmem. by apply Hbl.
  - intros p q y Hp Hq Hrp Hrq. simpl in *.
    destruct (decide (p = idx)) as [->|Hnp];
      destruct (decide (q = idx)) as [->|Hnq]; [done| | |].
    + rewrite Hnew in Hrp. injection Hrp as <-. rewrite Hold in Hrq by done.
      assert (q = n) by (eapply Hd; eauto; lia). lia.
    + rewrite Hnew in Hrq. injection Hrq as <-. rewrite Hold in Hrp by done.
      assert (p = n) by (eapply Hd; eauto; lia). lia.
    + rewrite Hold in Hrp, Hrq by done. eapply Hd; eauto; lia.
  - intros y Hy. pose proof Hy as [Hyx Hys]%Hmem. simpl.
    destruct (decide (y = last)) as [->|Hyl].
    + exists idx. split; [by eapply wr_rd_eq|]. split; [|done].
      destruct (decide (idx = n)) as [Heq|?]; [|lia].
      subst idx. congruence.
    + destruct (Hi _ Hys) as (p & Hp1 & Hp2 & Hp3).
      exists p. split; [erewrite wr_rd_ne; [done|exact Hwi|done]|].
      assert (p <> n) by (intros ->; congruence).
      assert (p <> idx) by (intros ->; congruence).
      split; [lia|]. by rewrite Hold.
Qed.

Lemma remove_nonmember s x s' :
  fastset_remove s x = Some s' -> fastset_contains s x <> Some true -> s' = s.
Proof.
  unfold fastset_remove, fastset_contains.
  destruct (to_unsigned x <? limit s); [|congruence].
  destruct (rd (index s) x) as [idx|]; [simpl|done].
  destruct (idx <? members s); [|congruence].
  destruct (rd (member s) idx) as [m|]; [simpl|done].
  destruct (m =? to_unsigned x); [done|congruence].
Qed.

Lemma remove_inv s x s' :
  rep_inv s -> fastset_remove s x = Some s' -> rep_inv s'.
Proof.
  intros Hinv Hr.
  destruct (decide (fastset_contains s x = Some true)) as [Hc|Hc].
  - apply contains_true_inv in Hc as (_ & _ & Hm); [|apply Hinv].
    destruct (remove_member s x Hinv Hm) as (s'' & Hr' & Hinv' & _).
    congruence.
  - by rewrite (remove_nonmember _ _ _ Hr Hc).
Qed.

(** ** Pop and vacate *)

Lemma pop_inv s v s' :
  rep_inv s -> fastset_pop s = Some (v, s') ->
  rep_inv s' /\ forall y, is_member s' y -> is_member s y.
Proof.
  intros Hinv. unfold fastset_pop.
  destruct (Z.eqb_spec (members s) 0) as [_|Hne].
  { intros [= _ <-]. done. }
  destruct Hinv as [Hwf Hd Hi].
  destruct Hwf as [Hl Hmb Hmc Hic Hmu Hiu Hbl].
  set (n := members s - 1).
  assert (Hn : to_unsigned n = n).
  { apply to_unsigned_id. unfold is_unsigned. lia. }
  rewrite Hn. destruct (rd (member s) n) as [last|]; [simpl|done].
  intros [= _ <-].
  assert (Hsub : forall y,
            is_member (mk_fastset n (limit s) (member s) (index s)) y ->
            is_member s y).
  { intros y (p & Hp & Hr). simpl in *. exists p. split; [lia|done]. }
  split; [|done]. constructor.
  - constructor; simpl; try done; try lia. intros y Hy%Hsub. by apply Hbl.
  - intros p q y Hp Hq. simpl in *. apply Hd; lia.
  - intros y Hy. pose proof (Hsub _ Hy) as Hys.
    destruct Hy as (p & Hp & Hr). simpl in *.
    destruct (Hi _ Hys) as (q & Hq1 & Hq2 & Hq3).
    assert (q = p) by (eapply Hd; eauto; lia). subst q.
    exists p. done.
Qed.

Lemma vacate_inv s : rep_inv s -> rep_inv (fastset_vacate s).
Proof.
  intros [[Hl Hmb Hmc Hic Hmu Hiu Hbl] Hd Hi].
  assert (Hnone : forall y, ~ is_member (fastset_vacate s) y).
  { intros y (p & Hp & _). simpl in Hp. lia. }
  constructor.
  - constructor; simpl; try done; try lia. intros y Hy. by destruct (Hnone y).
  - intros p q y Hp. simpl in Hp. lia.
  - intros y Hy. by destruct (Hnone y).
Qed.

Lemma init_inv s0 : rep_inv (fastset_init s0).
Proof.
  assert (Hnone : forall y, ~ is_member (fastset_init s0) y).
  { intros y (p & Hp & _). simpl in Hp. lia. }
  constructor.
  - constructor; simpl; try done; try (unfold UINT_MAX; lia).
    intros y Hy. by destruct (Hnone y).
  - intros p q y Hp. simpl in Hp. lia.
  - intros y Hy. by destruct (Hnone y).
Qed.

Lemma reachable_inv s : reachable s -> rep_inv s.
Proof.
  induction 1 as [s0|s _ IH|junk s x s' _ IH Hx Ha|s x s' _ IH Hx Hr|s v s' _ IH Hp].
  - apply init_inv.
  - by apply vacate_inv.
  - destruct (decide (x = UINT_MAX)) as [Hmax|Hlt].
    + rewrite (add_overflow junk s x (inv_wf _ IH) Hmax) in Ha. done.
    + destruct (add_spec junk s x IH) as (s'' & Ha' & Hinv & _).
      { unfold is_unsigned in Hx. lia. }
      congruence.
  - by eapply remove_inv.
  - by eapply pop_inv.
Qed.

Lemma rep_inv_nonmember s : rep_inv s -> nonmember_rejected s.
Proof.
  intros [[Hl Hmb Hmc Hic Hmu Hiu Hbl] Hd Hi] x Hx Hnm.
  destruct (Z.le_gt_cases (limit s) x) as [?|Hlt]; [by left|right].
  destruct (rd_is_Some (index s) x) as [p Hp]; [lia|].
  exists p. split; [done|].
  destruct (Z.le_gt_cases (members s) p) as [?|Hpm]; [by left|right].
  pose proof (rd_Forall _ _ _ _ Hiu Hp) as [? _].
  destruct (rd_is_Some (member s) p) as [m Hm]; [lia|].
  exists m. split; [done|]. intros ->. apply Hnm. exists p. split; [lia|done].
Qed.

Lemma contains_outside s y :
  well_formed s -> ~ is_unsigned y ->
  fastset_contains s y = if to_unsigned y <? limit s then None else Some false.
Proof.
  intros Hwf Hy. unfold fastset_contains.
  destruct (to_unsigned y <? limit s); [|done].
  assert (Hnone : rd (index s) y = None).
  { destruct (rd (index s) y) as [v|] eqn:Hrd; [|done].
    apply rd_Some_bounds in Hrd. rewrite (wf_index_cells _ Hwf) in Hrd.
    pose proof (wf_limit _ Hwf). destruct Hy. unfold is_unsigned. lia. }
  by rewrite Hnone.
Qed.

(** Under the invariant the membership test decides [is_member]. *)
Lemma contains_decides s x b :
  rep_inv s -> fastset_contains s x = Some b ->
  (b = true <-> is_member s x).
Proof.
  intros Hinv Hc. split.
  - intros ->. by apply (contains_true_inv s x (inv_wf _ Hinv)).
  - intros Hm. rewrite (contains_member _ _ Hinv Hm) in Hc. congruence.
Qed.

(** The two additions that build [Samples.set_5_2], run on the code.  The
    stale index cell of 3 points at the first member, 5, and the second
    comparison of the membership test rejects it. *)
Example add_5_then_2 :
  fastset_add Samples.junk (fastset_init Samples.blank) 5 = Some Samples.set_5
  /\ fastset_add Samples.junk Samples.set_5 2 = Some Samples.set_5_2.
Proof. split; reflexivity. Qed.

Example stale_index_is_rejected :
  rd (index Samples.set_5_2) 3 = Some 0 /\
  fastset_contains Samples.set_5_2 3 = Some false /\
  fastset_contains Samples.set_5_2 5 = Some true /\
  fastset_contains Samples.set_5_2 (-1) = Some false.
Proof. repeat split; reflexivity. Qed.

(** Removing the first member moves the last one into its cell. *)
Example remove_5_swaps :
  fastset_remove Samples.set_5_2 5 =
    Some {| members := 1; limit := 6;
            member := [2; 2; 7; 7; 7; 7]; index := [0; 0; 0; 0; 0; 0] |}.
Proof. reflexivity. Qed.

Example pop_then_empty :
  fastset_pop Samples.set_5 =
    Some (5, {| members := 0; limit := 6;
                member := [5; 7; 7; 7; 7; 7]; index := [0; 0; 0; 0; 0; 0] |})
  /\ fastset_pop (fastset_vacate Samples.set_5_2)
      = Some (-1, fastset_vacate Samples.set_5_2).
Proof. split; reflexivity. Qed.

Lemma sample_reachable : reachable Samples.set_5_2.
Proof.
  apply (reach_add Samples.junk Samples.set_5 2).
  - apply (reach_add Samples.junk (fastset_init Samples.blank) 5).
    + apply reach_init.
    + unfold is_unsigned, UINT_MAX. lia.
    + reflexivity.
  - unfold is_unsigned, UINT_MAX. lia.
  - reflexivity.
Defined.

(** C7.  Every set that the public operations [fastset_init],
    [fastset_vacate], [fastset_add], [fastset_remove] and [fastset_pop] can
    produce satisfies the representation invariant of the header: each
    member [x] (a value stored in the leading [members] cells) has
    [index[x]] equal to some [p] with [0 <= p < members] and
    [member[p] = x], and each nonnegative non-member [x] has [x >= limit],
    or [index[x] >= members], or [member[index[x]] <> x].  The cells that
    the program never wrote are arbitrary: [reach_add] takes any content
    for the cells a reallocation appends. *)
Theorem reachable_sets_satisfy_invariant (s : fastset) :
  reachable s -> member_indexed s /\ nonmember_rejected s.
Proof.
  intros Hr. pose proof (reachable_inv s Hr) as Hinv. split.
  - apply Hinv.
  - by apply rep_inv_nonmember.
Qed.

Lemma reachable_sets_satisfy_invariant_witness :
  reachable Samples.set_5_2 /\
  member_indexed Samples.set_5_2 /\ nonmember_rejected Samples.set_5_2.
Proof.
  split; [exact sample_reachable|].
  exact (reachable_sets_satisfy_invariant Samples.set_5_2 sample_reachable).
Defined.

(** C8.  On a set that satisfies the representation invariant,
    [fastset_add] of a nonnegative [int] [x] returns, [x] is then
    contained, the count [members] grows by exactly one when [x] was not
    contained and stays the same when it was, and whatever was contained
    still is. *)
Theorem add_then_contains (junk : fresh_cells) (s : fastset) (x : Z) :
  rep_inv s -> 0 <= x <= INT_MAX ->
  exists s' b,
    fastset_add junk s x = Some s' /\
    fastset_contains s x = Some b /\
    fastset_contains s' x = Some true /\
    members s' = (if b then members s else members s + 1) /\
    (forall y, fastset_contains s y = Some true ->
               fastset_contains s' y = Some true).
Proof.
  intros Hinv Hx.
  destruct (add_spec junk s x Hinv) as (s' & Ha & Hinv' & _ & Hmem & Hcount).
  { unfold INT_MAX, UINT_MAX in *. lia. }
  destruct (contains_total s x (inv_wf _ Hinv)) as [b Hb].
  { unfold is_unsigned, INT_MAX, UINT_MAX in *. lia. }
  exists s', b. split; [done|]. split; [done|].
  split; [apply (contains_member s' x Hinv'), Hmem; by left|].
  split.
  - pose proof (contains_decides s x b Hinv Hb) as Hdec.
    destruct Hcount as [[Hm ->] | [Hnm ->]].
    + apply Hdec in Hm. by subst b.
    + destruct b; [|done]. destruct Hnm. by apply Hdec.
  - intros y Hy. apply (contains_member s' y Hinv'), Hmem. right.
    by apply (contains_true_inv s y (inv_wf _ Hinv)).
Qed.

Lemma add_then_contains_witness :
  rep_inv Samples.set_5_2 /\ 0 <= 9 <= INT_MAX /\
  exists s' b,
    fastset_add Samples.junk Samples.set_5_2 9 = Some s' /\
    fastset_contains Samples.set_5_2 9 = Some b /\
    fastset_contains s' 9 = Some true /\
    members s' = (if b then members Samples.set_5_2
                  else members Samples.set_5_2 + 1) /\
    (forall y, fastset_contains Samples.set_5_2 y = Some true ->
               fastset_contains s' y = Some true).
Proof.
  assert (Hinv : rep_inv Samples.set_5_2)
    by exact (reachable_inv _ sample_reachable).
  assert (Hx : 0 <= 9 <= INT_MAX) by (unfold INT_MAX; lia).
  split; [exact Hinv|]. split; [exact Hx|].
  exact (add_then_contains Samples.junk Samples.set_5_2 9 Hinv Hx).
Defined.

(** C9.  On a set that satisfies the representation invariant,
    [fastset_remove] of a contained [x] returns, [x] is then not
    contained, the membership test answers for every other value what it
    answered before (so the other members stay and none appears), and the
    count [members] drops by exactly one. *)
Theorem remove_member_only (s : fastset) (x : Z) :
  rep_inv s -> fastset_contains s x = Some true ->
  exists s',
    fastset_remove s x = Some s' /\
    fastset_contains s' x = Some false /\
    (forall y, y <> x -> fastset_contains s' y = fastset_contains s y) /\
    members s' = members s - 1.
Proof.
  intros Hinv Hc.
  destruct (contains_true_inv s x (inv_wf _ Hinv) Hc) as (Hu & _ & Hm).
  destruct (remove_member s x Hinv Hm) as (s' & Hr & Hinv' & Hcount & Hlim & Hmem).
  exists s'. split; [done|].
  assert (Hval : forall y b, is_unsigned y ->
            fastset_contains s' y = Some b -> (b = true <-> y <> x /\ is_member s y)).
  { intros y b Hy Hb. rewrite (contains_decides s' y b Hinv' Hb). apply Hmem. }
  split; [|split; [|done]].
  - destruct (contains_total s' x (inv_wf _ Hinv') Hu) as [b Hb].
    destruct b; [|done]. destruct (proj1 (Hval x true Hu Hb) eq_refl). done.
  - intros y Hne. destruct (decide (is_unsigned y)) as [Hy|Hy].
    + destruct (contains_total s' y (inv_wf _ Hinv') Hy) as [b' Hb'].
      destruct (contains_total s y (inv_wf _ Hinv) Hy) as [b Hb].
      rewrite Hb', Hb. f_equal.
      pose proof (Hval y b' Hy Hb') as H'.
      pose proof (contains_decides s y b Hinv Hb) as H0.
      destruct b', b; try done.
      * destruct (proj1 H' eq_refl) as [_ Hmy]. by apply H0 in Hmy.
      * assert (false = true) by (apply H'; split; [done|by apply H0]). done.
    + rewrite !contains_outside, Hlim by (done || apply Hinv || apply Hinv').
      done.
Qed.

Lemma remove_member_only_witness :
  rep_inv Samples.set_5_2 /\
  fastset_contains Samples.set_5_2 5 = Some true /\
  exists s',
    fastset_remove Samples.set_5_2 5 = Some s' /\
    fastset_contains s' 5 = Some false /\
    (forall y, y <> 5 ->
       fastset_contains s' y = fastset_contains Samples.set_5_2 y) /\
    members s' = members Samples.set_5_2 - 1.
Proof.
  assert (Hinv : rep_inv Samples.set_5_2)
    by exact (reachable_inv _ sample_reachable).
  split; [exact Hinv|]. split; [reflexivity|].
  exact (remove_member_only Samples.set_5_2 5 Hinv eq_refl).
Defined.

End fastset_properties.

(* ===================================================================== *)
(** * Properties of descRW.c *)
(* ===================================================================== *)

Section descRW_properties.
Import CInt DescRW.

Lemma first_failure_app t1 t2 :
  first_failure (t1 ++ t2) =
  if first_failure t1 =? 0 then first_failure t2 else first_failure t1.
Proof.
  induction t1 as [|e t1 IH]; simpl; [done|].
  destruct e; try done. destruct (Z.eqb_spec result 0) as [->|Hr]; [done|].
  by destruct (Z.eqb_spec result 0).
Qed.

Lemma track_app s t1 t2 : track (track s t1) t2 = track s (t1 ++ t2).
Proof.
  unfold track. destruct (Z.eqb_spec s 0) as [->|Hs].
  - by rewrite first_failure_app.
  - by destruct (Z.eqb_spec s 0).
Qed.

Lemma none_of_app p t1 t2 :
  none_of p (t1 ++ t2) = none_of p t1 && none_of p t2.
Proof. unfold none_of. apply forallb_app. Qed.

Lemma none_of_f90io_first_failure t :
  none_of is_f90io_rw t = true -> first_failure t = 0.
Proof.
  induction t as [|e t IH]; simpl; [done|].
  destruct e; simpl; try done; auto.
Qed.

(** ** The sends of the owner loop *)

Lemma owner_loop_spec rt fuel z adr str pc a b t :
  (1 <= fuel)%nat ->
  owner_loop rt fuel z adr str pc (__fort_owner a b) t =
  Some (tt, t ++ (if GET_DIST_LCPU rt =? 0 then []
                  else [Ev_rsendl 0 adr (z_cnt z) str
                          (F90_KIND_G (z_ac z)) (F90_LEN_G (z_ac z))])).
Proof.
  intros Hf. destruct fuel as [|fuel]; [lia|].
  unfold __fort_owner, __fort_next_owner. cbn [owner_loop].
  rewrite Z.leb_refl. unfold io_bind.
  assert (Hstop : forall u, owner_loop rt fuel z adr str pc (-1) u = Some (tt, u)).
  { intros u. by destruct fuel. }
  destruct (Z.eqb_spec 0 (GET_DIST_LCPU rt)) as [<-|Hne]; simpl.
  - unfold io_ret. by rewrite Hstop, app_nil_r.
  - destruct (Z.eqb_spec (GET_DIST_LCPU rt) 0) as [?|_]; [congruence|].
    unfold emit. by rewrite Hstop.
Qed.


(** ** One run *)

Lemma guarded_rw_spec z kind cnt str adr len t :
  guarded_rw z kind cnt str adr len t =
  if z_stat z =? 0
  then Some (set_stat z (z_f90io_rw z t kind cnt str adr len),
             t ++ [Ev_f90io_rw kind cnt str adr len
                     (z_f90io_rw z t kind cnt str adr len)])
  else Some (z, t).
Proof. unfold guarded_rw. by destruct (z_stat z =? 0). Qed.

Lemma io_write_spec rt z t :
  let ac := z_ac z in
  let adr := __fort_local_address rt (z_ab z) ac (z_index z) in
  let t1 := t ++ [Ev_local_address (z_ab z) (z_index z) adr] in
  __io_write rt z t =
  guarded_rw z (F90_KIND_G ac) (z_cnt z) (int_mul (z_str z) (F90_LEN_G ac))
    adr (F90_LEN_G ac) t1.
Proof. done. Qed.

Lemma io_read_local_spec rt fuel z t :
  LOCAL_MODE rt = true ->
  let ac := z_ac z in
  let adr := __fort_local_address rt (z_ab z) ac (z_index z) in
  let t1 := t ++ [Ev_local_address (z_ab z) (z_index z) adr] in
  __io_read rt fuel z t =
  guarded_rw z (F90_KIND_G ac) (z_cnt z) (int_mul (z_str z) (F90_LEN_G ac))
    adr (F90_LEN_G ac) t1.
Proof.
  intros Hl. unfold __io_read, call_local_address, io_bind, emit, io_ret.
  simpl. by rewrite Hl.
Qed.

Lemma io_read_other_spec rt fuel z t :
  LOCAL_MODE rt = false -> GET_DIST_LCPU rt <> GET_DIST_IOPROC rt ->
  let ac := z_ac z in
  let adr := __fort_local_address rt (z_ab z) ac (z_index z) in
  let buf := __fort_getgbuf rt (int_mul (z_cnt z) (F90_LEN_G ac)) in
  __io_read rt fuel z t =
  Some (z, t ++ [Ev_local_address (z_ab z) (z_index z) adr;
                 Ev_getgbuf (int_mul (z_cnt z) (F90_LEN_G ac)) buf]
             ++ (if adr =? NULL then []
                 else [Ev_rrecvl (GET_DIST_IOPROC rt) adr (z_cnt z) (z_str z)
                         (F90_KIND_G ac) (F90_LEN_G ac)])).
Proof.
  intros Hl Hne. unfold __io_read, call_local_address, call_getgbuf,
    io_bind, emit, io_ret. simpl. rewrite Hl.
  destruct (Z.eqb_spec (GET_DIST_LCPU rt) (GET_DIST_IOPROC rt)) as [?|_]; [done|].
  destruct (_ =? NULL); simpl; by rewrite <- !app_assoc.
Qed.

Lemma io_read_coordinator_spec rt fuel z t :
  LOCAL_MODE rt = false -> GET_DIST_LCPU rt = GET_DIST_IOPROC rt ->
  (1 <= fuel)%nat ->
  let ac := z_ac z in
  let adr := __fort_local_address rt (z_ab z) ac (z_index z) in
  let buf := __fort_getgbuf rt (int_mul (z_cnt z) (F90_LEN_G ac)) in
  let adr' := if adr =? NULL then buf else adr in
  let str' := if adr =? NULL then 1 else z_str z in
  let t1 := t ++ [Ev_local_address (z_ab z) (z_index z) adr;
                  Ev_getgbuf (int_mul (z_cnt z) (F90_LEN_G ac)) buf] in
  let sends := if GET_DIST_LCPU rt =? 0 then []
               else [Ev_rsendl 0 adr' (z_cnt z) str'
                       (F90_KIND_G ac) (F90_LEN_G ac)] in
  __io_read rt fuel z t =
  match guarded_rw z (F90_KIND_G ac) (z_cnt z) (int_mul str' (F90_LEN_G ac))
          adr' (F90_LEN_G ac) t1 with
  | Some (z', t2) => Some (z', t2 ++ sends)
  | None => None
  end.
Proof.
  intros Hl Heq Hf. cbv zeta.
  unfold __io_read, call_local_address, call_getgbuf.
  rewrite guarded_rw_spec.
  unfold io_bind, emit, io_ret. cbv beta iota zeta. rewrite Hl.
  rewrite <- !app_assoc. cbn [app].
  destruct (Z.eqb_spec (GET_DIST_LCPU rt) (GET_DIST_IOPROC rt)) as [_|?]; [|done].
  rewrite guarded_rw_spec.
  destruct (z_stat z =? 0); rewrite owner_loop_spec by done;
    rewrite <- ?app_assoc; reflexivity.
Qed.

Lemma set_stat_same z : set_stat z (z_stat z) = z.
Proof. by destruct z. Qed.

Lemma first_failure_single kind cnt str adr len r pre post :
  none_of is_f90io_rw pre = true -> none_of is_f90io_rw post = true ->
  first_failure (pre ++ Ev_f90io_rw kind cnt str adr len r :: post) = r.
Proof.
  intros Hpre Hpost. rewrite first_failure_app.
  rewrite (none_of_f90io_first_failure _ Hpre). simpl.
  rewrite (none_of_f90io_first_failure _ Hpost).
  by destruct (Z.eqb_spec r 0).
Qed.

(** What one guarded f90io call in the middle of a run does to the status:
    [pre] and [post] are the other events of the run. *)
Lemma guarded_run_track z kind cnt str adr len t pre post z1 t1 :
  none_of is_f90io_rw pre = true -> none_of is_f90io_rw post = true ->
  guarded_rw z kind cnt str adr len (t ++ pre) = Some (z1, t1) ->
  exists t', t1 ++ post = t ++ t' /\
    z1 = set_stat z (track (z_stat z) t') /\
    (z_stat z <> 0 -> none_of is_f90io_rw t' = true) /\
    (none_of is_transport pre = true -> none_of is_transport post = true ->
     none_of is_transport t' = true).
Proof.
  intros Hpre Hpost. rewrite guarded_rw_spec. unfold track.
  destruct (Z.eqb_spec (z_stat z) 0) as [Hz|Hz]; intros [= <- <-].
  - eexists. split; [by rewrite <- !app_assoc|]. simpl.
    split; [by rewrite first_failure_single|]. split; [done|].
    intros Hp1 Hp2. rewrite none_of_app, Hp1. simpl. done.
  - exists (pre ++ post). split; [by rewrite app_assoc|].
    split; [by rewrite set_stat_same|].
    split; [intros _; by rewrite none_of_app, Hpre, Hpost|].
    intros Hp1 Hp2. by rewrite none_of_app, Hp1, Hp2.
Qed.

(** Splits the run at its guarded f90io call: [post] are the events that
    follow the call, and [guarded_run_track] says what the call did. *)
Ltac split_at_guarded_rw t post :=
  match goal with
  | |- context [guarded_rw ?z ?k ?c ?s ?a ?l (t ++ ?pre)] =>
      let z1 := fresh "z1" in
      let t1 := fresh "t1" in
      let Hg := fresh "Hg" in
      destruct (guarded_rw z k c s a l (t ++ pre)) as [[z1 t1]|] eqn:Hg;
      [|by rewrite guarded_rw_spec in Hg; destruct (z_stat z =? 0)];
      let t' := fresh "t'" in
      let Ht := fresh "Ht" in
      let Hz := fresh "Hz" in
      let Hs := fresh "Hs" in
      let Htr := fresh "Htr" in
      destruct (guarded_run_track z k c s a l t pre post z1 t1)
        as (t' & Ht & Hz & Hs & Htr);
      [done| |done|]; [|subst z1; exists t'; rewrite ?app_nil_r in Ht;
                        rewrite Ht]
  end.

Lemma io_write_track rt z t :
  exists t',
    __io_write rt z t = Some (set_stat z (track (z_stat z) t'), t ++ t') /\
    (z_stat z <> 0 -> none_of is_f90io_rw t' = true) /\
    none_of is_transport t' = true.
Proof.
  rewrite io_write_spec. cbv zeta.
  split_at_guarded_rw t (@nil event); [done|].
  split; [done|]. split; [done|]. by apply Htr.
Qed.

Lemma call_fio_rw_spec rt fuel z t :
  z_fio_rw z = Io_write \/ (1 <= fuel)%nat ->
  exists t',
    call_fio_rw rt fuel z t = Some (set_stat z (track (z_stat z) t'), t ++ t') /\
    (z_stat z <> 0 -> none_of is_f90io_rw t' = true) /\
    (z_fio_rw z = Io_write -> none_of is_transport t' = true) /\
    (z_fio_rw z = Io_read -> LOCAL_MODE rt = false ->
     GET_DIST_LCPU rt <> GET_DIST_IOPROC rt ->
     none_of is_f90io_rw t' = true).
Proof.
  intros Hfuel. unfold call_fio_rw.
  destruct (z_fio_rw z) eqn:Hrw.
  - (* __io_read *)
    destruct Hfuel as [?|Hfuel]; [done|].
    destruct (LOCAL_MODE rt) eqn:Hl.
    + rewrite io_read_local_spec by done. cbv zeta.
      split_at_guarded_rw t (@nil event); [done|]. by repeat split.
    + destruct (decide (GET_DIST_LCPU rt = GET_DIST_IOPROC rt)) as [Hc|Hc].
      * rewrite io_read_coordinator_spec by done. cbv zeta.
        match goal with
        | |- context [if GET_DIST_LCPU rt =? 0 then [] else [?send]] =>
            split_at_guarded_rw t
              (if GET_DIST_LCPU rt =? 0 then [] else [send])
        end; [by destruct (GET_DIST_LCPU rt =? 0)|].
        by repeat split.
      * rewrite io_read_other_spec by done. cbv zeta.
        eexists. split; [|split; [|split; [done|]]].
        -- f_equal. f_equal.
           rewrite <- (set_stat_same z) at 1. f_equal. unfold track.
           destruct (Z.eqb_spec (z_stat z) 0) as [->|_]; [|done].
           symmetry. apply none_of_f90io_first_failure.
           by destruct (_ =? NULL).
        -- intros _. by destruct (_ =? NULL).
        -- intros _ _ _. by destruct (_ =? NULL).
  - (* __io_write *)
    destruct (io_write_track rt z t) as (t' & Hrun & Hs & Htr).
    exists t'. by repeat split.
Qed.

(** ** The loop over the runs *)

Lemma fortio_loop_runs_spec rt fuel runs : forall z t,
  z_fio_rw z = Io_write \/ (1 <= fuel)%nat ->
  exists z' t',
    fortio_loop_runs rt fuel z runs t = Some (z', t ++ t') /\
    same_request z z' /\
    z_stat z' = track (z_stat z) t' /\
    (z_stat z <> 0 -> none_of is_f90io_rw t' = true) /\
    (z_fio_rw z = Io_write -> none_of is_transport t' = true) /\
    (z_fio_rw z = Io_read -> LOCAL_MODE rt = false ->
     GET_DIST_LCPU rt <> GET_DIST_IOPROC rt ->
     none_of is_f90io_rw t' = true).
Proof.
  induction runs as [|r runs IH]; intros z t Hfuel.
  - exists z, []. simpl. unfold io_ret. rewrite app_nil_r.
    split; [done|]. split; [by constructor|].
    split; [unfold track; simpl; by destruct (Z.eqb_spec (z_stat z) 0)|]. done.
  - simpl. unfold io_bind.
    destruct (call_fio_rw_spec rt fuel (set_run z r) t Hfuel)
      as (t1 & Hrun & Hskip1 & Htr1 & Hoth1).
    rewrite Hrun.
    destruct (IH (set_stat (set_run z r) (track (z_stat (set_run z r)) t1))
                (t ++ t1) Hfuel)
      as (z' & t2 & Hrest & [Hab Hac Hf Hrw Hrepl] & Hstat & Hskip2 & Htr2 & Hoth2).
    simpl in *.
    exists z', (t1 ++ t2). rewrite app_assoc.
    split; [done|]. split; [by constructor|].
    split; [by rewrite Hstat, track_app|].
    split; [|split].
    + intros Hz. rewrite none_of_app, Hskip1 by done. simpl.
      apply Hskip2. unfold track. by destruct (Z.eqb_spec (z_stat z) 0).
    + intros Hw. by rewrite none_of_app, Htr1, Htr2.
    + intros Hr Hl Hc. by rewrite none_of_app, Hoth1, Hoth2.
Qed.

Lemma track_nonzero s t : s <> 0 -> track s t = s.
Proof. intros Hs. unfold track. by destruct (Z.eqb_spec s 0). Qed.

(** ** The entry point *)

Lemma fortio_main_array_spec rt fuel z ab ac rw f t :
  z_stat z = 0 ->
  rw <> 0 \/ (1 <= fuel)%nat ->
  exists t',
    fortio_main_array rt fuel z ab ac rw f t = Some (first_failure t', t ++ t') /\
    (rw <> 0 -> none_of is_transport t' = true) /\
    (rw = 0 -> LOCAL_MODE rt = false ->
     GET_DIST_LCPU rt <> GET_DIST_IOPROC rt ->
     none_of is_f90io_rw t' = true).
Proof.
  intros Hstat0 Hfuel. unfold fortio_main_array, __fortio_stat_bcst.
  set (z1 := set_request _ _ _ _ _).
  assert (Hz1 : z_fio_rw z1 = Io_write \/ (1 <= fuel)%nat).
  { destruct Hfuel as [Hrw|?]; [left|by right].
    simpl. by destruct (Z.eqb_spec rw 0). }
  assert (Hwr : rw <> 0 -> z_fio_rw z1 = Io_write).
  { intros Hne. simpl. by destruct (Z.eqb_spec rw 0). }
  assert (Hrd : rw = 0 -> z_fio_rw z1 = Io_read).
  { intros ->. done. }
  (* the rest of the function, from any request that carries [z1]'s routine
     and a clear status *)
  assert (Hrest : forall z2 u,
            z_fio_rw z2 = z_fio_rw z1 -> z_stat z2 = 0 ->
            exists t',
              (z3 <~ (if 0 <? F90_RANK_G ac
                      then __fortio_loop rt fuel z2 (F90_RANK_G ac)
                      else call_fio_rw rt fuel (set_cnt_str z2 1 1)) ;;
               io_ret (z_stat z3)) u = Some (first_failure t', u ++ t') /\
              (rw <> 0 -> none_of is_transport t' = true) /\
              (rw = 0 -> LOCAL_MODE rt = false ->
               GET_DIST_LCPU rt <> GET_DIST_IOPROC rt ->
               none_of is_f90io_rw t' = true)).
  { intros z2 u Hsame Hz2. unfold io_bind, __fortio_loop.
    destruct (0 <? F90_RANK_G ac).
    - destruct (fortio_loop_runs_spec rt fuel
                  (fortio_runs rt (z_ac z2) (F90_RANK_G ac)) z2 u)
        as (z' & t' & Hrun & _ & Hstat & _ & Htr & Hoth);
        [by rewrite Hsame|].
      rewrite Hrun. exists t'. rewrite Hstat, Hz2. unfold io_ret.
      split; [done|]. split.
      + intros Hne. apply Htr. rewrite Hsame. by apply Hwr.
      + intros Hr Hl Hc. apply Hoth; [|done|done]. rewrite Hsame. by apply Hrd.
    - destruct (call_fio_rw_spec rt fuel (set_cnt_str z2 1 1) u)
        as (t' & Hrun & _ & Htr & Hoth); [simpl; by rewrite Hsame|].
      rewrite Hrun. exists t'. simpl. rewrite Hz2. unfold io_ret.
      split; [done|]. split.
      + intros Hne. apply Htr. simpl. rewrite Hsame. by apply Hwr.
      + intros Hr Hl Hc. apply Hoth; [|done|done].
        simpl. rewrite Hsame. by apply Hrd. }
  unfold io_bind at 1.
  destruct ((rw =? 0) && negb (LOCAL_MODE rt)) eqn:Hglobal.
  - change (call_describe_replication rt ac z1 t)
      with (Some (set_repl z1 (__fort_describe_replication rt ac),
                  t ++ [Ev_describe_replication])).
    destruct (Hrest (set_repl z1 (__fort_describe_replication rt ac))
                (t ++ [Ev_describe_replication]))
      as (t' & Hrun & Htr & Hoth); [done|done|].
    exists (Ev_describe_replication :: t').
    rewrite <- app_assoc in Hrun. split; [exact Hrun|].
    split; [|done]. intros Hne.
    apply andb_true_iff in Hglobal as [Hrw0%Z.eqb_eq _]. done.
  - unfold io_ret at 1. by apply Hrest.
Qed.

Lemma fortio_main_scalar_spec rt z ab ac rw f t :
  z_stat z = 0 ->
  let kind := TYPEKIND rt ac in
  let size := GET_DIST_SIZE_OF rt kind in
  fortio_main_scalar rt z ab ac rw f t =
  Some (if LOCAL_MODE rt || (GET_DIST_LCPU rt =? GET_DIST_IOPROC rt)
        then f t kind 1 1 ab size else 0,
        t ++ (if LOCAL_MODE rt || (GET_DIST_LCPU rt =? GET_DIST_IOPROC rt)
              then [Ev_f90io_rw kind 1 1 ab size (f t kind 1 1 ab size)]
              else [])
          ++ (if (rw =? 0) && negb (LOCAL_MODE rt)
              then [Ev_rbcstl (GET_DIST_IOPROC rt) ab 1 1 kind size]
              else [])).
Proof.
  intros Hz. cbv zeta.
  unfold fortio_main_scalar, call_f90io_rw, history, io_bind, emit, io_ret,
    __fortio_stat_bcst.
  rewrite Hz.
  destruct (LOCAL_MODE rt || (GET_DIST_LCPU rt =? GET_DIST_IOPROC rt));
    destruct ((rw =? 0) && negb (LOCAL_MODE rt)); simpl;
    by rewrite <- ?app_assoc, ?app_nil_r.
Qed.

Lemma fortio_main_spec rt fuel z0 ab ac rw f t :
  rw <> 0 \/ (1 <= fuel)%nat ->
  exists t',
    __fortio_main rt fuel z0 ab ac rw f t = Some (first_failure t', t ++ t') /\
    (rw <> 0 -> none_of is_transport t' = true) /\
    (rw = 0 -> LOCAL_MODE rt = false ->
     GET_DIST_LCPU rt <> GET_DIST_IOPROC rt ->
     none_of is_f90io_rw t' = true).
Proof.
  intros Hfuel. unfold __fortio_main.
  destruct (negb (F90_TAG_G ac =? __DESC rt)).
  - rewrite fortio_main_scalar_spec by done. cbv zeta.
    eexists. split; [|split].
    + f_equal. f_equal.
      destruct (LOCAL_MODE rt || (GET_DIST_LCPU rt =? GET_DIST_IOPROC rt));
        destruct ((rw =? 0) && negb (LOCAL_MODE rt)); simpl; try done;
        by destruct (Z.eqb_spec (f t (TYPEKIND rt ac) 1 1 ab
                       (GET_DIST_SIZE_OF rt (TYPEKIND rt ac))) 0).
    + intros Hne. destruct (Z.eqb_spec rw 0) as [?|_]; [done|]. simpl.
      rewrite app_nil_r. by destruct (_ || _).
    + intros -> Hl Hc. rewrite Hl. simpl.
      by destruct (Z.eqb_spec (GET_DIST_LCPU rt) (GET_DIST_IOPROC rt)).
  - destruct (F90_GSIZE_G ac <=? 0).
    + exists []. unfold io_ret. by rewrite app_nil_r.
    + by apply fortio_main_array_spec.
Qed.

(** A global read of the sample array, at the coordinator (participant 1,
    which holds none of it) and at participant 0: the first f90io call
    fails, the second run skips the call, both runs are sent and
    received. *)
Example global_read_at_coordinator :
  __fortio_main Samples.coordinator 1 Samples.stack_junk 1000 Samples.vector
    0 Samples.fails_5 [] =
  Some (5, [Ev_describe_replication;
            Ev_local_address 1000 [1] NULL; Ev_getgbuf 8 4096;
            Ev_f90io_rw 25 2 4 4096 4 5; Ev_rsendl 0 4096 2 1 25 4;
            Ev_local_address 1000 [3] NULL; Ev_getgbuf 8 4096;
            Ev_rsendl 0 4096 2 1 25 4]).
Proof. reflexivity. Qed.

Example global_read_at_peer :
  __fortio_main Samples.peer 1 Samples.stack_junk 1000 Samples.vector
    0 Samples.fails_5 [] =
  Some (0, [Ev_describe_replication;
            Ev_local_address 1000 [1] 1008; Ev_getgbuf 8 4096;
            Ev_rrecvl 1 1008 2 1 25 4;
            Ev_local_address 1000 [3] 1008; Ev_getgbuf 8 4096;
            Ev_rrecvl 1 1008 2 1 25 4]).
Proof. reflexivity. Qed.

(** Without fuel the owner loop of the coordinator does not get to its
    first iteration. *)
Example owner_loop_needs_fuel :
  __io_read Samples.coordinator 0 Samples.clean_read [] = None.
Proof. reflexivity. Qed.

(** C1, as the design document words it, does not hold.  In a global read
    of a four-element array in two runs, the f90io call of the first run
    fails with code 5 at the coordinator (participant 1), which returns 5;
    participant 0, which holds the data and receives both runs, returns
    0. *)
Lemma status_agreement_fails : ~ status_agreement.
Proof.
  intros Hclaim.
  assert (Hcpu : 0 <> GET_DIST_IOPROC Samples.coordinator) by (simpl; lia).
  pose proof (Hclaim Samples.coordinator 1%nat Samples.stack_junk
                Samples.stack_junk 1000 1000 Samples.vector Samples.fails_5
                0 (fun ab _ _ => ab + 8)
                5 [Ev_describe_replication;
                   Ev_local_address 1000 [1] NULL; Ev_getgbuf 8 4096;
                   Ev_f90io_rw 25 2 4 4096 4 5; Ev_rsendl 0 4096 2 1 25 4;
                   Ev_local_address 1000 [3] NULL; Ev_getgbuf 8 4096;
                   Ev_rsendl 0 4096 2 1 25 4]
                0 [Ev_describe_replication;
                   Ev_local_address 1000 [1] 1008; Ev_getgbuf 8 4096;
                   Ev_rrecvl 1 1008 2 1 25 4;
                   Ev_local_address 1000 [3] 1008; Ev_getgbuf 8 4096;
                   Ev_rrecvl 1 1008 2 1 25 4]
                eq_refl eq_refl Hcpu eq_refl eq_refl) as Habs.
  discriminate Habs.
Qed.

(** C1, amended.  A global read returns on each participant the status
    that this participant recorded itself.  At the I/O coordinator that is
    the first nonzero value its f90io calls returned, 0 when there is
    none.  Nothing carries this value to the others ([__fortio_stat_bcst]
    is defined as the value of the local status word): any other
    participant [cpu] makes no f90io call and returns 0, whatever the
    coordinator's calls returned. *)
Theorem collective_read_status_is_local
    (rt : runtime) (fuel : nat) (z0 z0' : fio_parm) (ab ab' : addr)
    (ac : F90_Desc) (f f' : io_fn) (cpu : Z)
    (la : addr -> F90_Desc -> list Z -> addr) (t u : trace) :
  LOCAL_MODE rt = false -> GET_DIST_LCPU rt = GET_DIST_IOPROC rt ->
  cpu <> GET_DIST_IOPROC rt -> (1 <= fuel)%nat ->
  (exists t',
     __fortio_main rt fuel z0 ab ac 0 f t = Some (first_failure t', t ++ t')) /\
  (exists u',
     __fortio_main (as_participant rt cpu la) fuel z0' ab' ac 0 f' u
     = Some (0, u ++ u') /\
     none_of is_f90io_rw u' = true).
Proof.
  intros Hl Hc Hcpu Hfuel. split.
  - destruct (fortio_main_spec rt fuel z0 ab ac 0 f t) as (t' & Hrun & _);
      [by right|].
    by exists t'.
  - destruct (fortio_main_spec (as_participant rt cpu la) fuel z0' ab' ac 0 f' u)
      as (u' & Hrun & _ & Hoth); [by right|].
    pose proof (Hoth eq_refl Hl Hcpu) as Hnone.
    exists u'. split; [|done].
    by rewrite Hrun, (none_of_f90io_first_failure _ Hnone).
Qed.

Lemma collective_read_status_is_local_witness :
  LOCAL_MODE Samples.coordinator = false /\
  GET_DIST_LCPU Samples.coordinator = GET_DIST_IOPROC Samples.coordinator /\
  0 <> GET_DIST_IOPROC Samples.coordinator /\ (1 <= 1)%nat /\
  (exists t',
     __fortio_main Samples.coordinator 1 Samples.stack_junk 1000
       Samples.vector 0 Samples.fails_5 []
     = Some (first_failure t', [] ++ t')) /\
  (exists u',
     __fortio_main Samples.peer 1 Samples.stack_junk 1000 Samples.vector 0
       Samples.fails_5 []
     = Some (0, [] ++ u') /\
     none_of is_f90io_rw u' = true).
Proof.
  assert (Hcpu : 0 <> GET_DIST_IOPROC Samples.coordinator) by (simpl; lia).
  split; [reflexivity|]. split; [reflexivity|]. split; [exact Hcpu|].
  split; [lia|].
  apply (collective_read_status_is_local Samples.coordinator 1
           Samples.stack_junk Samples.stack_junk 1000 1000 Samples.vector
           Samples.fails_5 Samples.fails_5 0 (fun ab _ _ => ab + 8) [] []
           eq_refl eq_refl Hcpu). lia.
Defined.

(** C3.  For an array descriptor (tag [__DESC]) whose global size is zero
    or negative, [__fortio_main] returns 0 and leaves the trace as it was,
    whether reading or writing: no f90io call, no address resolution, no
    replication setup, no send, receive or broadcast. *)
Theorem zero_size_array_is_silent
    (rt : runtime) (fuel : nat) (z0 : fio_parm) (ab : addr) (ac : F90_Desc)
    (rw : Z) (f : io_fn) (t : trace) :
  F90_TAG_G ac = __DESC rt -> F90_GSIZE_G ac <= 0 ->
  __fortio_main rt fuel z0 ab ac rw f t = Some (0, t).
Proof.
  intros Htag Hsize. unfold __fortio_main.
  rewrite Htag, Z.eqb_refl. simpl.
  by destruct (Z.leb_spec (F90_GSIZE_G ac) 0) as [_|?]; [|lia].
Qed.

Lemma zero_size_array_is_silent_witness :
  F90_TAG_G Samples.empty_vector = __DESC Samples.coordinator /\
  F90_GSIZE_G Samples.empty_vector <= 0 /\
  __fortio_main Samples.coordinator 0 Samples.stack_junk 1000
    Samples.empty_vector 1 Samples.fails_5 [] = Some (0, []).
Proof.
  split; [reflexivity|]. split; [simpl; lia|].
  apply zero_size_array_is_silent; [reflexivity|simpl; lia].
Defined.

(** C4.  On the write path, from a request whose recorded status is
    nonzero, every run of any sequence of runs makes no f90io call and
    leaves the status as it was.  A single write run never sends, receives
    or broadcasts, and its status follows the f90io result ([track]).  A
    write call of [__fortio_main] returns the first nonzero f90io result
    (0 when there is none) and performs no transport operation. *)
Theorem write_keeps_first_failure
    (rt : runtime) (fuel : nat) (runs : list run) (z : fio_parm) (t : trace)
    (w : fio_parm) (v : trace)
    (z0 : fio_parm) (ab : addr) (ac : F90_Desc) (rw : Z) (f : io_fn)
    (u : trace) :
  z_fio_rw z = Io_write -> z_stat z <> 0 -> rw <> 0 ->
  (exists z' t',
     fortio_loop_runs rt fuel z runs t = Some (z', t ++ t') /\
     z_stat z' = z_stat z /\
     none_of is_f90io_rw t' = true /\
     none_of is_transport t' = true) /\
  (exists w' v',
     __io_write rt w v = Some (w', v ++ v') /\
     z_stat w' = track (z_stat w) v' /\
     none_of is_transport v' = true) /\
  (exists u',
     __fortio_main rt fuel z0 ab ac rw f u = Some (first_failure u', u ++ u') /\
     none_of is_transport u' = true).
Proof.
  intros Hw Hz Hrw. split; [|split].
  - destruct (fortio_loop_runs_spec rt fuel runs z t)
      as (z' & t' & Hrun & _ & Hstat & Hskip & Htr & _); [by left|].
    exists z', t'. split; [done|].
    split; [by rewrite Hstat, track_nonzero|].
    split; [by apply Hskip|by apply Htr].
  - destruct (io_write_track rt w v) as (v' & Hrun & _ & Htr).
    by exists (set_stat w (track (z_stat w) v')), v'.
  - destruct (fortio_main_spec rt fuel z0 ab ac rw f u)
      as (u' & Hrun & Htr & _); [by left|].
    exists u'. split; [done|by apply Htr].
Qed.

Lemma write_keeps_first_failure_witness :
  z_fio_rw Samples.failed_write = Io_write /\
  z_stat Samples.failed_write <> 0 /\ 1 <> 0 /\
  (exists z' t',
     fortio_loop_runs Samples.coordinator 0 Samples.failed_write
       [mk_run [1] 2 1; mk_run [3] 2 1] [] = Some (z', [] ++ t') /\
     z_stat z' = z_stat Samples.failed_write /\
     none_of is_f90io_rw t' = true /\
     none_of is_transport t' = true) /\
  (exists w' v',
     __io_write Samples.coordinator Samples.clean_write [] = Some (w', [] ++ v') /\
     z_stat w' = track (z_stat Samples.clean_write) v' /\
     none_of is_transport v' = true) /\
  (exists u',
     __fortio_main Samples.coordinator 0 Samples.stack_junk 1000
       Samples.vector 1 Samples.fails_5 []
     = Some (first_failure u', [] ++ u') /\
     none_of is_transport u' = true).
Proof.
  assert (Hz : z_stat Samples.failed_write <> 0) by (simpl; lia).
  split; [reflexivity|]. split; [exact Hz|]. split; [lia|].
  apply write_keeps_first_failure; [reflexivity|exact Hz|lia].
Defined.

(** C5, as the design document words it, does not hold: for a scalar of a
    4-byte kind written in local mode the f90io function is called with
    stride argument 1 and element length 4. *)
Lemma scalar_write_stride_is_length_fails : ~ scalar_write_stride_is_length.
Proof.
  intros Hclaim.
  destruct (Hclaim Samples.alone 0%nat Samples.stack_junk 1000 Samples.scalar
              1 Samples.fails_5 [])
    as (st & kind & adr & len & r & Hrun); [simpl; lia|reflexivity|lia|].
  vm_compute in Hrun. injection Hrun as _ _ H1 _ H4 _. lia.
Qed.

(** C5, amended.  In local mode a scalar write makes exactly one f90io
    call and nothing else: count 1, stride argument the literal 1 (not
    multiplied by the element length), the base address, and the size of
    the kind as element length; its result is the status returned.  There
    is no broadcast. *)
Theorem scalar_write_local_mode
    (rt : runtime) (fuel : nat) (z0 : fio_parm) (ab : addr) (ac : F90_Desc)
    (rw : Z) (f : io_fn) (t : trace) :
  F90_TAG_G ac <> __DESC rt -> LOCAL_MODE rt = true -> rw <> 0 ->
  let kind := TYPEKIND rt ac in
  let size := GET_DIST_SIZE_OF rt kind in
  let r := f t kind 1 1 ab size in
  __fortio_main rt fuel z0 ab ac rw f t
  = Some (r, t ++ [Ev_f90io_rw kind 1 1 ab size r]).
Proof.
  intros Htag Hl Hrw. cbv zeta. unfold __fortio_main.
  destruct (Z.eqb_spec (F90_TAG_G ac) (__DESC rt)) as [?|_]; [done|].
  cbn [negb]. rewrite fortio_main_scalar_spec by done. cbv zeta.
  rewrite Hl. destruct (Z.eqb_spec rw 0) as [?|_]; [done|]. done.
Qed.

Lemma scalar_write_local_mode_witness :
  F90_TAG_G Samples.scalar <> __DESC Samples.alone /\
  LOCAL_MODE Samples.alone = true /\ 1 <> 0 /\
  __fortio_main Samples.alone 0 Samples.stack_junk 1000 Samples.scalar 1
    Samples.fails_5 []
  = Some (5, [] ++ [Ev_f90io_rw 25 1 1 1000 4 5]).
Proof.
  assert (Htag : F90_TAG_G Samples.scalar <> __DESC Samples.alone)
    by (simpl; lia).
  split; [exact Htag|]. split; [reflexivity|]. split; [lia|].
  apply (scalar_write_local_mode Samples.alone 0 Samples.stack_junk 1000
           Samples.scalar 1 Samples.fails_5 [] Htag eq_refl). lia.
Defined.




(** C6.  A read run in a multi-participant job.  At the I/O coordinator
    [rt], when the resolved local address is NULL, the f90io call (made
    when no failure is recorded) fills the scratch buffer obtained for the
    run, with stride 1 times the element length.  At any other participant
    [cpu] the run makes no f90io call and no send; its only transport
    operation is one receive from the coordinator into the local address
    when that address is not NULL, and none at all when it is NULL. *)
Theorem read_run_roles
    (rt : runtime) (fuel : nat) (z : fio_parm) (t : trace)
    (cpu : Z) (la : addr -> F90_Desc -> list Z -> addr) (zp : fio_parm)
    (tp : trace) :
  LOCAL_MODE rt = false -> GET_DIST_LCPU rt = GET_DIST_IOPROC rt ->
  __fort_local_address rt (z_ab z) (z_ac z) (z_index z) = NULL ->
  cpu <> GET_DIST_IOPROC rt -> (1 <= fuel)%nat ->
  let ac := z_ac z in
  let size := int_mul (z_cnt z) (F90_LEN_G ac) in
  let buf := __fort_getgbuf rt size in
  let adr := la (z_ab zp) (z_ac zp) (z_index zp) in
  (exists z' t',
     __io_read rt fuel z t = Some (z', t ++ t') /\
     In (Ev_getgbuf size buf) t' /\
     List.filter is_f90io_rw t' =
       if z_stat z =? 0
       then [Ev_f90io_rw (F90_KIND_G ac) (z_cnt z)
               (int_mul 1 (F90_LEN_G ac)) buf (F90_LEN_G ac) (z_stat z')]
       else []) /\
  (exists tp',
     __io_read (as_participant rt cpu la) fuel zp tp = Some (zp, tp ++ tp') /\
     none_of is_f90io_rw tp' = true /\
     none_of is_send tp' = true /\
     List.filter is_transport tp' =
       if adr =? NULL then []
       else [Ev_rrecvl (GET_DIST_IOPROC rt) adr (z_cnt zp) (z_str zp)
               (F90_KIND_G (z_ac zp)) (F90_LEN_G (z_ac zp))]).
Proof.
  intros Hl Hc Hnull Hcpu Hfuel. cbv zeta. split.
  - rewrite io_read_coordinator_spec by done. cbv zeta.
    rewrite guarded_rw_spec, Hnull. change (NULL =? NULL) with true. cbv iota.
    set (sends := if GET_DIST_LCPU rt =? 0 then [] else [_]).
    assert (Hsends : List.filter is_f90io_rw sends = []).
    { subst sends. by destruct (GET_DIST_LCPU rt =? 0). }
    destruct (Z.eqb_spec (z_stat z) 0) as [Hz|Hz].
    + eexists _, _. split; [by rewrite <- !app_assoc|].
      split; [right; by left|]. cbn [app List.filter is_f90io_rw].
      by rewrite Hsends.
    + eexists _, _. split; [by rewrite <- !app_assoc|].
      split; [right; by left|]. cbn [app List.filter is_f90io_rw].
      by rewrite Hsends.
  - rewrite io_read_other_spec by done. cbv zeta.
    cbn [as_participant __fort_local_address __fort_getgbuf GET_DIST_IOPROC].
    eexists. split; [reflexivity|].
    by destruct (la (z_ab zp) (z_ac zp) (z_index zp) =? NULL).
Qed.

Lemma read_run_roles_witness :
  LOCAL_MODE Samples.coordinator = false /\
  GET_DIST_LCPU Samples.coordinator = GET_DIST_IOPROC Samples.coordinator /\
  __fort_local_address Samples.coordinator 1000 Samples.vector [1] = NULL /\
  0 <> GET_DIST_IOPROC Samples.coordinator /\ (1 <= 1)%nat /\
  (exists z' t',
     __io_read Samples.coordinator 1 Samples.clean_read [] = Some (z', [] ++ t') /\
     In (Ev_getgbuf 8 4096) t' /\
     List.filter is_f90io_rw t' = [Ev_f90io_rw 25 2 4 4096 4 (z_stat z')]) /\
  (exists tp',
     __io_read Samples.peer 1 Samples.clean_read [] =
       Some (Samples.clean_read, [] ++ tp') /\
     none_of is_f90io_rw tp' = true /\
     none_of is_send tp' = true /\
     List.filter is_transport tp' = [Ev_rrecvl 1 1008 2 1 25 4]).
Proof.
  assert (Hcpu : 0 <> GET_DIST_IOPROC Samples.coordinator) by (simpl; lia).
  split; [reflexivity|]. split; [reflexivity|]. split; [reflexivity|].
  split; [exact Hcpu|]. split; [lia|].
  apply (read_run_roles Samples.coordinator 1 Samples.clean_read [] 0
           (fun ab _ _ => ab + 8) Samples.clean_read [] eq_refl eq_refl
           eq_refl Hcpu). lia.
Defined.

(** C10.  When no failure is recorded, [__io_write] resolves the local
    address and calls the f90io function with the very address that the
    resolver returned, whatever it is, NULL included: these two events are
    all the run does, so there is no test for NULL and no scratch buffer
    is obtained. *)
Theorem write_uses_resolved_address
    (rt : runtime) (z : fio_parm) (t : trace) :
  z_stat z = 0 ->
  let ac := z_ac z in
  let adr := __fort_local_address rt (z_ab z) ac (z_index z) in
  let resolved := Ev_local_address (z_ab z) (z_index z) adr in
  let str := int_mul (z_str z) (F90_LEN_G ac) in
  let r := z_f90io_rw z (t ++ [resolved]) (F90_KIND_G ac) (z_cnt z) str adr
             (F90_LEN_G ac) in
  __io_write rt z t =
    Some (set_stat z r,
          t ++ [resolved;
                Ev_f90io_rw (F90_KIND_G ac) (z_cnt z) str adr (F90_LEN_G ac) r]).
Proof.
  intros Hz. cbv zeta.
  rewrite io_write_spec. cbv zeta. rewrite guarded_rw_spec, Hz.
  change (0 =? 0) with true. cbv iota. by rewrite <- app_assoc.
Qed.

Lemma write_uses_resolved_address_witness :
  z_stat Samples.clean_write = 0 /\
  __fort_local_address Samples.coordinator 1000 Samples.vector [1] = NULL /\
  __io_write Samples.coordinator Samples.clean_write [] =
    Some (set_stat Samples.clean_write 5,
          [] ++ [Ev_local_address 1000 [1] NULL;
                 Ev_f90io_rw 25 2 4 NULL 4 5]).
Proof.
  split; [reflexivity|]. split; [reflexivity|].
  apply (write_uses_resolved_address Samples.coordinator Samples.clean_write
           [] eq_refl).
Defined.

End descRW_properties.

(* ===================================================================== *)
(** * Further properties of fastset.h *)
(* ===================================================================== *)

Section fastset_operations.
Import CInt FastSet.

Lemma contains_nonmember s y :
  rep_inv s -> is_unsigned y -> ~ is_member s y ->
  fastset_contains s y = Some false.
Proof.
  intros Hinv Hy Hnm.
  destruct (contains_total s y (inv_wf _ Hinv) Hy) as [b Hb].
  destruct b; [|done].
  destruct Hnm. by apply (contains_decides s y true Hinv Hb).
Qed.

(** Two sets with the same members answer the membership test alike. *)
Lemma contains_same_members s s' y :
  rep_inv s -> rep_inv s' -> is_unsigned y ->
  (is_member s' y <-> is_member s y) ->
  fastset_contains s' y = fastset_contains s y.
Proof.
  intros Hinv Hinv' Hy Hiff.
  destruct (contains_total s y (inv_wf _ Hinv) Hy) as [b Hb].
  destruct (contains_total s' y (inv_wf _ Hinv') Hy) as [b' Hb'].
  rewrite Hb, Hb'. f_equal.
  pose proof (contains_decides s y b Hinv Hb) as H1.
  pose proof (contains_decides s' y b' Hinv' Hb') as H2.
  destruct b, b'; try done.
  - assert (false = true) by (apply H2, Hiff, H1; done). done.
  - assert (false = true) by (apply H1, Hiff, H2; done). done.
Qed.

Lemma to_int_small x : 0 <= x <= INT_MAX -> to_int x = x.
Proof.
  intros Hx. unfold to_int.
  rewrite to_unsigned_id by (unfold is_unsigned, INT_MAX, UINT_MAX in *; lia).
  destruct (Z.leb_spec x INT_MAX); [done|lia].
Qed.

Lemma to_int_not_sentinel x : 0 <= x < UINT_MAX -> to_int x <> -1.
Proof.
  intros Hx. unfold to_int.
  rewrite to_unsigned_id by (unfold is_unsigned, UINT_MAX in *; lia).
  destruct (Z.leb_spec x INT_MAX); unfold INT_MAX, UINT_MAX in *; lia.
Qed.

(** What [fastset_pop] does to a set that is not empty. *)
Lemma pop_nonempty s :
  rep_inv s -> members s <> 0 ->
  exists x,
    rd (member s) (members s - 1) = Some x /\
    fastset_pop s =
      Some (to_int x, mk_fastset (members s - 1) (limit s) (member s) (index s)) /\
    is_member s x /\
    (forall y, is_member (mk_fastset (members s - 1) (limit s) (member s)
                            (index s)) y
               <-> y <> x /\ is_member s y).
Proof.
  intros Hinv Hne.
  pose proof (wf_members _ (inv_wf _ Hinv)) as Hm.
  pose proof (wf_limit _ (inv_wf _ Hinv)) as Hl.
  pose proof (wf_member_cells _ (inv_wf _ Hinv)) as Hc.
  assert (Hn : to_unsigned (members s - 1) = members s - 1).
  { apply to_unsigned_id. unfold is_unsigned. lia. }
  destruct (rd_is_Some (member s) (members s - 1)) as [x Hx]; [lia|].
  exists x. split; [done|]. split.
  { unfold fastset_pop. destruct (Z.eqb_spec (members s) 0); [done|].
    rewrite Hn, Hx. done. }
  split; [exists (members s - 1); split; [lia|done]|].
  intros y. unfold is_member. simpl. split.
  - intros (p & Hp & Hr). split; [|exists p; split; [lia|done]].
    intros ->. assert (p = members s - 1); [|lia].
    eapply (inv_distinct _ Hinv); eauto; lia.
  - intros [Hyx (p & Hp & Hr)]. exists p. split; [|done].
    destruct (decide (p = members s - 1)) as [->|?]; [congruence|lia].
Qed.

(** While [limit] is at most 2^31 every member is a nonnegative [int], so
    it is the same value as an [unsigned] cell and as an [int] argument
    or result. *)
Lemma member_is_int s x :
  rep_inv s -> limit s <= INT_MAX + 1 -> is_member s x -> 0 <= x <= INT_MAX.
Proof.
  intros Hinv Hl Hm.
  pose proof (member_unsigned s x (inv_wf _ Hinv) Hm) as [Hx0 _].
  pose proof (wf_below_limit _ (inv_wf _ Hinv) _ Hm) as Hxl. lia.
Qed.

Lemma int_cases y : is_int y -> y < 0 \/ is_unsigned y.
Proof.
  unfold is_int, is_unsigned, INT_MAX, UINT_MAX.
  intros Hy. destruct (Z.lt_ge_cases y 0); [by left|right; lia].
Qed.

(** A negative [int] converts to an [unsigned] of at least 2^31, which the
    first comparison of [fastset_contains] rejects before any cell is
    read. *)
Lemma contains_negative s y :
  limit s <= INT_MAX + 1 -> is_int y -> y < 0 ->
  fastset_contains s y = Some false.
Proof.
  intros Hl Hy Hneg. unfold fastset_contains.
  assert (Hu : to_unsigned y = y + 4294967296).
  { unfold to_unsigned. unfold is_int, INT_MIN in Hy.
    rewrite <- (Z.mod_add y 1) by lia. apply Z.mod_small. lia. }
  rewrite Hu. unfold is_int, INT_MIN, INT_MAX in *.
  destruct (Z.ltb_spec (y + 4294967296) (limit s)); [lia|done].
Qed.

Lemma contains_nonmember_int s y :
  rep_inv s -> limit s <= INT_MAX + 1 -> is_int y -> ~ is_member s y ->
  fastset_contains s y = Some false.
Proof.
  intros Hinv Hl Hy Hnm. destruct (int_cases y Hy) as [Hneg|Hu].
  - by apply contains_negative.
  - by apply contains_nonmember.
Qed.

Lemma contains_same_members_int s s' y :
  rep_inv s -> rep_inv s' ->
  limit s <= INT_MAX + 1 -> limit s' <= INT_MAX + 1 -> is_int y ->
  (is_member s' y <-> is_member s y) ->
  fastset_contains s' y = fastset_contains s y.
Proof.
  intros Hinv Hinv' Hl Hl' Hy Hiff. destruct (int_cases y Hy) as [Hneg|Hu].
  - by rewrite !contains_negative.
  - by apply contains_same_members.
Qed.


Lemma sample_inv : rep_inv Samples.set_5_2.
Proof. exact (reachable_inv _ sample_reachable). Defined.

(** X1.  While [limit] is at most 2^31, [fastset_pop] on a nonempty set
    that satisfies the invariant returns the value [v] of the last live
    cell, which is a nonnegative [int], keeps the invariant, lowers the
    count by one, and removes exactly that value: [v] was contained and no
    longer is, and every other [int] is contained exactly when it was. *)
Theorem pop_removes_last_member (s : fastset) (y : Z) :
  rep_inv s -> limit s <= INT_MAX + 1 -> members s <> 0 -> is_int y ->
  exists v s',
    rd (member s) (members s - 1) = Some v /\
    0 <= v <= INT_MAX /\
    fastset_pop s = Some (v, s') /\
    rep_inv s' /\
    members s' = members s - 1 /\
    limit s' = limit s /\
    fastset_contains s v = Some true /\
    fastset_contains s' v = Some false /\
    (y <> v -> fastset_contains s' y = fastset_contains s y).
Proof.
  intros Hinv Hl Hne Hy.
  destruct (pop_nonempty s Hinv Hne) as (x & Hx & Hpop & Hmx & Hmem).
  destruct (pop_inv s _ _ Hinv Hpop) as [Hinv' _].
  pose proof (member_is_int s x Hinv Hl Hmx) as Hxi.
  rewrite (to_int_small x Hxi) in Hpop.
  assert (Hxint : is_int x) by (unfold is_int, INT_MIN; lia).
  eexists x, _. split; [done|]. split; [done|]. split; [exact Hpop|].
  split; [done|]. split; [done|]. split; [done|].
  split; [by apply contains_member|]. split.
  - apply contains_nonmember_int; [done|done|done|]. rewrite Hmem. tauto.
  - intros Hyx. apply contains_same_members_int; [done|done|done|done|done|].
    rewrite Hmem. tauto.
Qed.

Lemma pop_removes_last_member_witness :
  rep_inv Samples.set_5_2 /\ limit Samples.set_5_2 <= INT_MAX + 1 /\
  members Samples.set_5_2 <> 0 /\ is_int (-7) /\
  exists v s',
    rd (member Samples.set_5_2) (members Samples.set_5_2 - 1) = Some v /\
    0 <= v <= INT_MAX /\
    fastset_pop Samples.set_5_2 = Some (v, s') /\
    rep_inv s' /\
    members s' = members Samples.set_5_2 - 1 /\
    limit s' = limit Samples.set_5_2 /\
    fastset_contains Samples.set_5_2 v = Some true /\
    fastset_contains s' v = Some false /\
    (-7 <> v -> fastset_contains s' (-7) = fastset_contains Samples.set_5_2 (-7)).
Proof.
  assert (Hl : limit Samples.set_5_2 <= INT_MAX + 1)
    by (unfold INT_MAX; simpl; lia).
  assert (Hne : members Samples.set_5_2 <> 0) by (simpl; lia).
  assert (Hy : is_int (-7)) by (unfold is_int, INT_MIN, INT_MAX; lia).
  split; [exact sample_inv|]. split; [exact Hl|]. split; [exact Hne|].
  split; [exact Hy|].
  exact (pop_removes_last_member Samples.set_5_2 (-7) sample_inv Hl Hne Hy).
Defined.

(** X2.  On a set that satisfies the invariant [fastset_pop] always
    returns, and the value it returns is the sentinel -1 exactly when the
    set is empty, in which case the set is left as it was: no member can
    be read back as -1, because members are below [limit], which is at
    most [UINT_MAX]. *)
Theorem pop_sentinel_iff_empty (s : fastset) :
  rep_inv s ->
  exists v s',
    fastset_pop s = Some (v, s') /\
    (v = -1 <-> members s = 0) /\
    (members s = 0 -> s' = s).
Proof.
  intros Hinv. destruct (decide (members s = 0)) as [H0|Hne].
  - exists (-1), s. unfold fastset_pop. rewrite H0. done.
  - destruct (pop_nonempty s Hinv Hne) as (x & Hx & Hpop & Hmx & _).
    eexists _, _. split; [exact Hpop|]. split; [|done].
    split; [|done]. intros Hv.
    pose proof (member_unsigned s x (inv_wf _ Hinv) Hmx) as [Hx0 _].
    pose proof (wf_below_limit _ (inv_wf _ Hinv) _ Hmx) as Hxl.
    pose proof (wf_limit _ (inv_wf _ Hinv)) as Hl.
    destruct (to_int_not_sentinel x); [lia|done].
Qed.

Lemma pop_sentinel_iff_empty_witness :
  rep_inv (fastset_vacate Samples.set_5_2) /\
  exists v s',
    fastset_pop (fastset_vacate Samples.set_5_2) = Some (v, s') /\
    (v = -1 <-> members (fastset_vacate Samples.set_5_2) = 0) /\
    (members (fastset_vacate Samples.set_5_2) = 0 ->
     s' = fastset_vacate Samples.set_5_2).
Proof.
  assert (Hinv : rep_inv (fastset_vacate Samples.set_5_2))
    by exact (vacate_inv _ sample_inv).
  split; [exact Hinv|].
  exact (pop_sentinel_iff_empty (fastset_vacate Samples.set_5_2) Hinv).
Defined.



(** X4.  [fastset_get] and the index array are inverse to each other on
    the live range.  While [limit] is at most 2^31, for
    [0 <= idx < members] [fastset_get] returns a nonnegative [int] [v],
    the value of cell [idx]; [v] is contained, [index[v]] is [idx], and
    [fastset_get] returns [v] at no other live position, so a traversal
    by [fastset_get] meets every member once. *)
Theorem get_index_round_trip (s : fastset) (idx j : Z) :
  rep_inv s -> limit s <= INT_MAX + 1 ->
  0 <= idx < members s -> 0 <= j < members s ->
  exists v,
    fastset_get s idx = Some v /\
    0 <= v <= INT_MAX /\
    rd (member s) idx = Some v /\
    fastset_contains s v = Some true /\
    rd (index s) v = Some idx /\
    (fastset_get s j = Some v -> j = idx).
Proof.
  intros Hinv Hl Hidx Hj.
  pose proof (wf_members _ (inv_wf _ Hinv)) as Hm.
  pose proof (wf_member_cells _ (inv_wf _ Hinv)) as Hc.
  destruct (rd_is_Some (member s) idx) as [x Hx]; [lia|].
  assert (Hmx : is_member s x) by (exists idx; done).
  pose proof (member_is_int s x Hinv Hl Hmx) as Hxi.
  exists x. split.
  { unfold fastset_get. rewrite Hx. simpl. by rewrite (to_int_small x Hxi). }
  split; [done|]. split; [done|].
  split; [by apply contains_member|]. split.
  - destruct (inv_indexed _ Hinv _ Hmx) as (p & Hp & Hpr & Hpx).
    rewrite Hp. f_equal. eapply (inv_distinct _ Hinv); eauto.
  - unfold fastset_get.
    destruct (rd (member s) j) as [x'|] eqn:Hx'; [simpl|done].
    assert (Hmx' : is_member s x') by (exists j; done).
    rewrite (to_int_small x' (member_is_int s x' Hinv Hl Hmx')).
    intros [= ->]. eapply (inv_distinct _ Hinv); eauto.
Qed.

Lemma get_index_round_trip_witness :
  rep_inv Samples.set_5_2 /\ limit Samples.set_5_2 <= INT_MAX + 1 /\
  0 <= 1 < members Samples.set_5_2 /\
  0 <= 0 < members Samples.set_5_2 /\
  exists v,
    fastset_get Samples.set_5_2 1 = Some v /\
    0 <= v <= INT_MAX /\
    rd (member Samples.set_5_2) 1 = Some v /\
    fastset_contains Samples.set_5_2 v = Some true /\
    rd (index Samples.set_5_2) v = Some 1 /\
    (fastset_get Samples.set_5_2 0 = Some v -> 0 = 1).
Proof.
  assert (Hl : limit Samples.set_5_2 <= INT_MAX + 1)
    by (unfold INT_MAX; simpl; lia).
  assert (H1 : 0 <= 1 < members Samples.set_5_2) by (simpl; lia).
  assert (H0 : 0 <= 0 < members Samples.set_5_2) by (simpl; lia).
  split; [exact sample_inv|]. split; [exact Hl|]. split; [exact H1|].
  split; [exact H0|].
  exact (get_index_round_trip Samples.set_5_2 1 0 sample_inv Hl H1 H0).
Defined.

(** X5.  Adding a value that is already contained returns the very same
    set: no cell is written, the count and the limit stay, and nothing is
    reallocated. *)
Theorem add_of_member_changes_nothing
    (junk : fresh_cells) (s : fastset) (x : Z) :
  well_formed s -> fastset_contains s x = Some true ->
  fastset_add junk s x = Some s.
Proof.
  intros Hwf Hc.
  destruct (contains_true_inv s x Hwf Hc) as (Hu & Hlt & _).
  revert Hc. unfold fastset_contains, fastset_add, fastset_add_probe.
  rewrite (to_unsigned_id _ Hu).
  destruct (Z.ltb_spec x (limit s)) as [_|?]; [|lia].
  destruct (Z.leb_spec (limit s) x) as [?|_]; [lia|].
  destruct (rd (index s) x) as [idx|]; [simpl|done].
  destruct (idx <? members s); [|done].
  destruct (rd (member s) idx) as [m|]; [simpl|done].
  by intros [= ->].
Qed.

Lemma add_of_member_changes_nothing_witness :
  well_formed Samples.set_5_2 /\
  fastset_contains Samples.set_5_2 2 = Some true /\
  fastset_add Samples.junk Samples.set_5_2 2 = Some Samples.set_5_2.
Proof.
  split; [exact (inv_wf _ sample_inv)|]. split; [reflexivity|].
  exact (add_of_member_changes_nothing Samples.junk Samples.set_5_2 2
           (inv_wf _ sample_inv) eq_refl).
Defined.

(** X6.  "Any integer value may be tested": while [limit] is at most
    2^31, [fastset_contains] and [fastset_remove] are defined for every
    [int] [x], a negative [x] is never contained, and removing a value
    that is not contained leaves the set as it is. *)
Theorem any_int_is_safe (s : fastset) (x : Z) :
  rep_inv s -> limit s <= INT_MAX + 1 -> is_int x ->
  exists b s',
    fastset_contains s x = Some b /\
    (x < 0 -> b = false) /\
    fastset_remove s x = Some s' /\
    rep_inv s' /\
    (b = false -> s' = s).
Proof.
  intros Hinv Hl Hx.
  assert (Hc : exists b, fastset_contains s x = Some b /\ (x < 0 -> b = false)).
  { destruct (Z.lt_ge_cases x 0) as [Hneg|Hpos].
    - exists false. split; [|done]. unfold fastset_contains.
      assert (Hu : to_unsigned x = x + 4294967296).
      { unfold to_unsigned. unfold is_int, INT_MIN in Hx.
        rewrite <- (Z.mod_add x 1) by lia.
        apply Z.mod_small. lia. }
      rewrite Hu. unfold is_int, INT_MIN, INT_MAX in *.
      destruct (Z.ltb_spec (x + 4294967296) (limit s)); [lia|done].
    - destruct (contains_total s x (inv_wf _ Hinv)) as [b Hb].
      { unfold is_unsigned, is_int, INT_MAX, UINT_MAX in *. lia. }
      exists b. split; [done|lia]. }
  destruct Hc as (b & Hb & Hneg).
  assert (Hr : exists s', fastset_remove s x = Some s').
  { destruct b.
    - apply contains_true_inv in Hb as (_ & _ & Hm); [|apply Hinv].
      destruct (remove_member s x Hinv Hm) as (s' & Hr & _). eauto.
    - exists s. revert Hb. unfold fastset_contains, fastset_remove.
      destruct (to_unsigned x <? limit s); [|done].
      destruct (rd (index s) x) as [idx|]; [simpl|done].
      destruct (idx <? members s); [|done].
      destruct (rd (member s) idx) as [m|]; [simpl|done].
      by intros [= ->]. }
  destruct Hr as [s' Hr].
  exists b, s'. split; [done|]. split; [done|]. split; [done|].
  split; [by eapply remove_inv|].
  intros ->. apply (remove_nonmember s x s' Hr). by rewrite Hb.
Qed.

Lemma any_int_is_safe_witness :
  rep_inv Samples.set_5_2 /\ limit Samples.set_5_2 <= INT_MAX + 1 /\
  is_int (-4) /\
  exists b s',
    fastset_contains Samples.set_5_2 (-4) = Some b /\
    (-4 < 0 -> b = false) /\
    fastset_remove Samples.set_5_2 (-4) = Some s' /\
    rep_inv s' /\
    (b = false -> s' = Samples.set_5_2).
Proof.
  assert (Hl : limit Samples.set_5_2 <= INT_MAX + 1)
    by (unfold INT_MAX; simpl; lia).
  assert (Hx : is_int (-4)) by (unfold is_int, INT_MIN, INT_MAX; lia).
  split; [exact sample_inv|]. split; [exact Hl|]. split; [exact Hx|].
  exact (any_int_is_safe Samples.set_5_2 (-4) sample_inv Hl Hx).
Defined.







Lemma pop_total s : rep_inv s -> exists r, fastset_pop s = Some r.
Proof.
  intros Hinv. destruct (decide (members s = 0)) as [H0|Hne].
  - exists (-1, s). unfold fastset_pop. by rewrite H0.
  - destruct (pop_nonempty s Hinv Hne) as (x & _ & Hpop & _). eauto.
Qed.

(** X9.  Whatever the public operations have built, the next operation
    stays inside the two arrays: the count never exceeds the limit, both
    arrays hold [limit] cells, every member is below the limit, and
    [fastset_add] (for an [unsigned] [x] below [UINT_MAX]),
    [fastset_remove] and [fastset_contains] (for a nonnegative [int] [v])
    and [fastset_pop] all return. *)
Theorem reachable_operations_stay_in_bounds
    (junk : fresh_cells) (s : fastset) (x v : Z) :
  reachable s -> 0 <= x < UINT_MAX -> 0 <= v <= INT_MAX ->
  members s <= limit s /\
  Z.of_nat (length (member s)) = limit s /\
  Z.of_nat (length (index s)) = limit s /\
  Forall (fun m => m < limit s) (live s) /\
  (exists s', fastset_add junk s x = Some s') /\
  (exists s', fastset_remove s v = Some s') /\
  (exists b, fastset_contains s v = Some b) /\
  (exists r, fastset_pop s = Some r).
Proof.
  intros Hr Hx Hv. pose proof (reachable_inv s Hr) as Hinv.
  pose proof (inv_wf _ Hinv) as Hwf.
  assert (Hu : is_unsigned v)
    by (unfold is_unsigned, INT_MAX, UINT_MAX in *; lia).
  split; [apply (wf_members _ Hwf)|].
  split; [apply (wf_member_cells _ Hwf)|].
  split; [apply (wf_index_cells _ Hwf)|].
  split.
  { apply Forall_forall. intros m Hm%list_elem_of_In%elem_of_live.
    by apply (wf_below_limit _ Hwf). }
  split.
  { destruct (add_spec junk s x Hinv Hx) as (s' & Ha & _). eauto. }
  destruct (contains_total s v Hwf Hu) as [b Hb].
  split; [|split; [eauto|]].
  - destruct b.
    + apply contains_true_inv in Hb as (_ & _ & Hm); [|done].
      destruct (remove_member s v Hinv Hm) as (s' & Hrm & _). eauto.
    + exists s. revert Hb. unfold fastset_contains, fastset_remove.
      destruct (to_unsigned v <? limit s); [|done].
      destruct (rd (index s) v) as [idx|]; [simpl|done].
      destruct (idx <? members s); [|done].
      destruct (rd (member s) idx) as [m|]; [simpl|done].
      by intros [= ->].
  - apply pop_total. done.
Qed.

Lemma reachable_operations_stay_in_bounds_witness :
  reachable Samples.set_5_2 /\ 0 <= 9 < UINT_MAX /\ 0 <= 5 <= INT_MAX /\
  members Samples.set_5_2 <= limit Samples.set_5_2 /\
  Z.of_nat (length (member Samples.set_5_2)) = limit Samples.set_5_2 /\
  Z.of_nat (length (index Samples.set_5_2)) = limit Samples.set_5_2 /\
  Forall (fun m => m < limit Samples.set_5_2) (live Samples.set_5_2) /\
  (exists s', fastset_add Samples.junk Samples.set_5_2 9 = Some s') /\
  (exists s', fastset_remove Samples.set_5_2 5 = Some s') /\
  (exists b, fastset_contains Samples.set_5_2 5 = Some b) /\
  (exists r, fastset_pop Samples.set_5_2 = Some r).
Proof.
  assert (Hx : 0 <= 9 < UINT_MAX) by (unfold UINT_MAX; lia).
  assert (Hv : 0 <= 5 <= INT_MAX) by (unfold INT_MAX; lia).
  split; [exact sample_reachable|]. split; [exact Hx|]. split; [exact Hv|].
  exact (reachable_operations_stay_in_bounds Samples.junk Samples.set_5_2 9 5
           sample_reachable Hx Hv).
Defined.

(** X10.  [fastset_add] has no defined result for [x = UINT_MAX] (which is
    what a caller passing -1 gets): [x >= limit] holds for every limit,
    the hint [x + 1] wraps around to 0, so nothing is reallocated, and the
    store [set->index[x]] falls outside an array of [limit] cells. *)
Theorem add_of_uint_max_is_out_of_bounds
    (junk : fresh_cells) (s : fastset) :
  well_formed s ->
  to_unsigned (UINT_MAX + 1) = 0 /\
  fastset_resize junk s (to_unsigned (UINT_MAX + 1)) = s /\
  wr (index s) UINT_MAX (members s) = None /\
  fastset_add junk s (to_unsigned (-1)) = None.
Proof.
  intros Hwf. pose proof (wf_limit _ Hwf) as Hl.
  split; [done|]. split.
  { unfold fastset_resize. change (to_unsigned (UINT_MAX + 1)) with 0.
    destruct (Z.ltb_spec (limit s) 0); [lia|done]. }
  split.
  { unfold wr. rewrite (wf_index_cells _ Hwf).
    destruct (Z.ltb_spec UINT_MAX (limit s)); [lia|].
    by rewrite andb_false_r. }
  by apply add_overflow.
Qed.

Lemma add_of_uint_max_is_out_of_bounds_witness :
  well_formed Samples.set_5_2 /\
  fastset_add Samples.junk Samples.set_5_2 (to_unsigned (-1)) = None.
Proof.
  split; [exact (inv_wf _ sample_inv)|].
  apply (add_of_uint_max_is_out_of_bounds Samples.junk Samples.set_5_2
           (inv_wf _ sample_inv)).
Defined.

End fastset_operations.

(* ===================================================================== *)
(** * Further properties of descRW.c *)
(* ===================================================================== *)

Section descRW_traces.
Import CInt DescRW RunTrace.

Lemma zero_or_self (r : Z) : (if r =? 0 then 0 else r) = r.
Proof. by destruct (Z.eqb_spec r 0). Qed.

Lemma run_events_spec rt fuel z t :
  enough rt fuel (z_fio_rw z) ->
  call_fio_rw rt fuel z t =
    Some (set_stat z (track (z_stat z) (run_events rt z t)),
          t ++ run_events rt z t).
Proof.
  intros Hfuel. unfold call_fio_rw, run_events, track.
  assert (Hplain :
    guarded_rw z (F90_KIND_G (z_ac z)) (z_cnt z)
      (int_mul (z_str z) (F90_LEN_G (z_ac z)))
      (__fort_local_address rt (z_ab z) (z_ac z) (z_index z))
      (F90_LEN_G (z_ac z)) (t ++ [run_resolved rt z])
    = Some (set_stat z
                (if z_stat z =? 0
                 then first_failure
                        (run_resolved rt z
                         :: run_call z (t ++ [run_resolved rt z])
                              (__fort_local_address rt (z_ab z) (z_ac z)
                                 (z_index z)) (z_str z))
                 else z_stat z),
              t ++ run_resolved rt z
                   :: run_call z (t ++ [run_resolved rt z])
                        (__fort_local_address rt (z_ab z) (z_ac z)
                           (z_index z)) (z_str z))).
  { rewrite guarded_rw_spec. unfold run_call.
    destruct (Z.eqb_spec (z_stat z) 0) as [Hz|Hz].
    - rewrite <- app_assoc. cbn [app first_failure run_resolved].
      by rewrite zero_or_self.
    - by rewrite set_stat_same. }
  destruct (z_fio_rw z) eqn:Hrw.
  - destruct (LOCAL_MODE rt) eqn:Hl.
    + rewrite io_read_local_spec by done. cbv zeta. exact Hplain.
    + destruct Hfuel as [?|[?|Hfuel]]; [done|congruence|].
      destruct (Z.eqb_spec (GET_DIST_LCPU rt) (GET_DIST_IOPROC rt)) as [Hc|Hc].
      * rewrite io_read_coordinator_spec by done. cbv zeta.
        rewrite guarded_rw_spec. unfold run_call.
        fold (run_source rt z) (run_stride rt z).
        assert (Hs : first_failure (run_sends rt z) = 0).
        { unfold run_sends. by destruct (GET_DIST_LCPU rt =? 0). }
        destruct (Z.eqb_spec (z_stat z) 0) as [Hz|Hz].
        -- rewrite <- !app_assoc.
           cbn [app first_failure run_resolved run_buffer]. rewrite Hs.
           by rewrite zero_or_self.
        -- rewrite <- !app_assoc. by rewrite set_stat_same.
      * rewrite io_read_other_spec by done. cbv zeta.
        destruct (Z.eqb_spec (z_stat z) 0) as [Hz|Hz].
        -- f_equal. f_equal. rewrite <- (set_stat_same z) at 1. f_equal.
           rewrite Hz. unfold run_recvs. symmetry.
           cbn [app first_failure run_resolved run_buffer].
           by destruct (_ =? NULL).
        -- by rewrite set_stat_same.
  - rewrite io_write_spec. cbv zeta. exact Hplain.
Qed.

Lemma loop_events_spec rt fuel runs : forall z t,
  enough rt fuel (z_fio_rw z) ->
  exists z',
    fortio_loop_runs rt fuel z runs t = Some (z', t ++ loop_events rt z runs t) /\
    z_stat z' = track (z_stat z) (loop_events rt z runs t).
Proof.
  induction runs as [|r runs IH]; intros z t Hfuel.
  - exists z. simpl. unfold io_ret. rewrite app_nil_r. split; [done|].
    unfold track. simpl. by rewrite zero_or_self.
  - cbn [fortio_loop_runs loop_events]. unfold io_bind.
    rewrite run_events_spec by done.
    set (e := run_events rt (set_run z r) t).
    destruct (IH (set_stat (set_run z r) (track (z_stat z) e)) (t ++ e))
      as (z' & Hrun & Hstat); [done|].
    exists z'. cbn [z_stat set_run] in *. rewrite Hrun, app_assoc.
    split; [done|]. rewrite Hstat. cbn [z_stat set_stat]. apply track_app.
Qed.

Lemma array_events_spec rt fuel z0 ab ac rw f t :
  enough rt fuel (if rw =? 0 then Io_read else Io_write) ->
  fortio_main_array rt fuel (set_stat z0 0) ab ac rw f t =
    Some (first_failure (array_events rt z0 ab ac rw f t),
          t ++ array_events rt z0 ab ac rw f t).
Proof.
  intros Hfuel. unfold fortio_main_array, array_events, __fortio_stat_bcst.
  fold (array_request z0 ab ac rw f). cbv zeta.
  set (z1 := array_request z0 ab ac rw f).
  assert (Hrest : forall z2 u,
            z_fio_rw z2 = z_fio_rw z1 -> z_stat z2 = 0 -> z_ac z2 = ac ->
            (z3 <~ (if 0 <? F90_RANK_G ac
                    then __fortio_loop rt fuel z2 (F90_RANK_G ac)
                    else call_fio_rw rt fuel (set_cnt_str z2 1 1)) ;;
             io_ret (z_stat z3)) u =
            Some (first_failure
                    (if 0 <? F90_RANK_G ac
                     then loop_events rt z2
                            (fortio_runs rt ac (F90_RANK_G ac)) u
                     else run_events rt (set_cnt_str z2 1 1) u),
                  u ++ (if 0 <? F90_RANK_G ac
                        then loop_events rt z2
                               (fortio_runs rt ac (F90_RANK_G ac)) u
                        else run_events rt (set_cnt_str z2 1 1) u))).
  { intros z2 u Hsame Hz2 Hac. unfold io_bind, __fortio_loop.
    destruct (0 <? F90_RANK_G ac).
    - destruct (loop_events_spec rt fuel (fortio_runs rt (z_ac z2) (F90_RANK_G ac))
                  z2 u) as (z' & Hrun & Hstat); [by rewrite Hsame|].
      rewrite Hrun, Hstat, Hz2, Hac. done.
    - rewrite run_events_spec by (cbn [z_fio_rw set_cnt_str]; by rewrite Hsame).
      cbn [z_stat set_stat set_cnt_str]. by rewrite Hz2. }
  unfold io_bind at 1.
  destruct ((rw =? 0) && negb (LOCAL_MODE rt)).
  - change (call_describe_replication rt ac z1 t)
      with (Some (set_repl z1 (__fort_describe_replication rt ac),
                  t ++ [Ev_describe_replication])).
    cbv iota beta. rewrite Hrest by done.
    rewrite <- app_assoc. done.
  - unfold io_ret at 1. cbv iota beta. rewrite Hrest by done.
    by rewrite app_nil_r.
Qed.

(** The events of a run do not depend on the recorded status apart from
    the f90io call, and a sequence of runs observes, event class by event
    class, what its runs observe. *)
Section observation.
Context (rt : runtime) (p : event -> bool) (expected : fio_parm -> trace).
Context (good : fio_parm -> Prop).
Hypothesis good_run : forall z r s,
  good z -> good (set_stat (set_run z r) s).
Hypothesis expected_stat : forall z s,
  expected (set_stat z s) = expected z.
Hypothesis observe_run : forall z r t,
  good z -> List.filter p (run_events rt (set_run z r) t)
            = expected (set_run z r).

Lemma observe_loop runs : forall z t,
  good z ->
  List.filter p (loop_events rt z runs t)
  = flat_map (fun r => expected (set_run z r)) runs.
Proof using All.
  induction runs as [|r runs IH]; intros z t Hz; [done|].
  cbn [loop_events flat_map]. rewrite List.filter_app, observe_run by done.
  f_equal. rewrite IH by (by apply good_run).
  apply flat_map_ext. intros r'. apply (expected_stat (set_run z r')).
Qed.
End observation.

Lemma flat_map_singleton {A B} (g : A -> B) (l : list A) :
  flat_map (fun a => [g a]) l = map g l.
Proof. induction l as [|a l IH]; [done|]. simpl. by rewrite IH. Qed.

Lemma flat_map_nothing {A B} (l : list A) :
  flat_map (fun _ : A => @nil B) l = [].
Proof. induction l as [|a l IH]; [done|]. by simpl. Qed.

Lemma filter_nil_none_of (p : event -> bool) (t : trace) :
  List.filter p t = [] -> none_of p t = true.
Proof.
  induction t as [|e t IH]; [done|]. simpl.
  destruct (p e); [done|]. intros H. by apply IH.
Qed.

Lemma filter_negb_nil_forallb (p : event -> bool) (t : trace) :
  List.filter (fun e => negb (p e)) t = [] -> forallb p t = true.
Proof.
  induction t as [|e t IH]; [done|]. simpl.
  destruct (p e); [|done]. intros H. by apply IH.
Qed.

Lemma filter_In_event (p : event -> bool) (t : trace) (e : event) :
  In e (List.filter p t) -> In e t.
Proof. intros H. by apply List.filter_In in H as [? _]. Qed.

Lemma io_results_app t1 t2 :
  io_results (t1 ++ t2) = io_results t1 ++ io_results t2.
Proof.
  induction t1 as [|e t1 IH]; [done|]. destruct e; simpl; by rewrite ?IH.
Qed.

Lemma io_results_nil_first_failure t :
  io_results t = [] -> first_failure t = 0.
Proof.
  induction t as [|e t IH]; [done|]. destruct e; simpl; try done.
Qed.

(** ** What one run shows *)

Ltac run_cases rt z :=
  unfold run_events, run_call, run_sends, run_recvs;
  destruct (z_fio_rw z); destruct (LOCAL_MODE rt);
  try destruct (GET_DIST_LCPU rt =? GET_DIST_IOPROC rt);
  try destruct (z_stat z =? 0);
  try destruct (GET_DIST_LCPU rt =? 0);
  try destruct (__fort_local_address rt (z_ab z) (z_ac z) (z_index z) =? NULL).

Lemma run_resolves rt z t :
  List.filter is_resolver (run_events rt z t) = [run_resolved rt z].
Proof. run_cases rt z; reflexivity. Qed.

Lemma run_sends_at_coordinator rt z t :
  z_fio_rw z = Io_read -> LOCAL_MODE rt = false ->
  GET_DIST_LCPU rt = GET_DIST_IOPROC rt ->
  List.filter is_send (run_events rt z t) = run_sends rt z.
Proof.
  intros Hr Hl Hc. unfold run_events. rewrite Hr, Hl, Hc, Z.eqb_refl.
  unfold run_call, run_sends.
  destruct (z_stat z =? 0); by destruct (GET_DIST_LCPU rt =? 0).
Qed.

Lemma run_transport_elsewhere rt z t :
  z_fio_rw z = Io_read -> LOCAL_MODE rt = false ->
  GET_DIST_LCPU rt <> GET_DIST_IOPROC rt ->
  List.filter is_transport (run_events rt z t) = run_recvs rt z.
Proof.
  intros Hr Hl Hc. unfold run_events. rewrite Hr, Hl.
  destruct (Z.eqb_spec (GET_DIST_LCPU rt) (GET_DIST_IOPROC rt)); [done|].
  unfold run_recvs. by destruct (_ =? NULL).
Qed.

Lemma run_local_only rt z t :
  LOCAL_MODE rt = true ->
  List.filter (fun e => negb (is_local_call e)) (run_events rt z t) = [].
Proof.
  intros Hl. unfold run_events, run_call. rewrite Hl.
  destruct (z_fio_rw z); by destruct (z_stat z =? 0).
Qed.

Lemma run_io_results rt z t :
  (z_stat z <> 0 -> io_results (run_events rt z t) = []) /\
  (io_results (run_events rt z t) = [] \/
   io_results (run_events rt z t) = [first_failure (run_events rt z t)]).
Proof.
  split.
  - intros Hz. destruct (Z.eqb_spec (z_stat z) 0) as [?|_]; [done|].
    unfold run_events, run_call, run_sends, run_recvs.
    destruct (Z.eqb_spec (z_stat z) 0) as [?|_]; [done|].
    destruct (z_fio_rw z); destruct (LOCAL_MODE rt);
      try destruct (GET_DIST_LCPU rt =? GET_DIST_IOPROC rt);
      try destruct (GET_DIST_LCPU rt =? 0);
      try destruct (__fort_local_address rt (z_ab z) (z_ac z) (z_index z)
                    =? NULL); reflexivity.
  - run_cases rt z; cbn [app io_results first_failure run_resolved run_buffer];
      rewrite ?zero_or_self; auto.
Qed.

Lemma run_events_local rt z a b t :
  LOCAL_MODE rt = true ->
  run_events rt (with_routine z a) t = run_events rt (with_routine z b) t.
Proof.
  intros Hl. unfold run_events. rewrite Hl. by destruct a, b.
Qed.

Lemma loop_events_local rt a b runs : forall z t,
  LOCAL_MODE rt = true ->
  loop_events rt (with_routine z a) runs t
  = loop_events rt (with_routine z b) runs t.
Proof.
  induction runs as [|r runs IH]; intros z t Hl; [done|].
  cbn [loop_events].
  change (set_run (with_routine z a) r) with (with_routine (set_run z r) a).
  change (set_run (with_routine z b) r) with (with_routine (set_run z r) b).
  rewrite (run_events_local rt (set_run z r) a b t Hl).
  f_equal. apply (IH (set_stat (set_run z r) _) _ Hl).
Qed.

(** ** What a sequence of runs shows *)

Lemma loop_io_results rt runs : forall z t,
  (z_stat z <> 0 -> io_results (loop_events rt z runs t) = []) /\
  (z_stat z = 0 ->
   halted (first_failure (loop_events rt z runs t))
     (io_results (loop_events rt z runs t))).
Proof.
  induction runs as [|r runs IH]; intros z t.
  - split; [done|]. intros _. by exists 0%nat.
  - cbn [loop_events].
    set (e := run_events rt (set_run z r) t).
    set (z1 := set_stat (set_run z r) (track (z_stat z) e)).
    destruct (IH z1 (t ++ e)) as [IHfail IHok].
    destruct (run_io_results rt (set_run z r) t) as [Hskip Hone].
    fold e in Hskip, Hone. cbn [z_stat set_run] in Hskip.
    rewrite io_results_app, first_failure_app. split.
    + intros Hz. rewrite Hskip by done. apply IHfail.
      subst z1. cbn [z_stat set_stat]. unfold track.
      by destruct (Z.eqb_spec (z_stat z) 0).
    + intros Hz.
      assert (Hz1 : z_stat z1 = first_failure e).
      { subst z1. cbn [z_stat set_stat]. unfold track. by rewrite Hz. }
      destruct Hone as [Hnone|Hone].
      * rewrite Hnone, (io_results_nil_first_failure e Hnone). simpl.
        apply IHok. by rewrite Hz1, (io_results_nil_first_failure e Hnone).
      * rewrite Hone. destruct (Z.eqb_spec (first_failure e) 0) as [H0|Hne].
        -- destruct IHok as [n Hn]; [by rewrite Hz1|].
           exists (S n). rewrite Hn, H0. done.
        -- rewrite IHfail by (by rewrite Hz1). exists 0%nat. simpl.
           by destruct (Z.eqb_spec (first_failure e) 0).
Qed.

Lemma run_halted rt z t :
  z_stat z = 0 ->
  halted (first_failure (run_events rt z t)) (io_results (run_events rt z t)).
Proof.
  intros Hz. destruct (run_io_results rt z t) as [_ [Hnone|Hone]].
  - rewrite Hnone, (io_results_nil_first_failure _ Hnone). by exists 0%nat.
  - rewrite Hone. destruct (Z.eqb_spec (first_failure (run_events rt z t)) 0)
      as [H0|Hne].
    + exists 1%nat. by rewrite H0.
    + exists 0%nat. simpl.
      by destruct (Z.eqb_spec (first_failure (run_events rt z t)) 0).
Qed.

(** ** The array branch of the entry point *)

Lemma fortio_main_array_case rt fuel z0 ab ac rw f t :
  F90_TAG_G ac = __DESC rt -> 0 < F90_GSIZE_G ac ->
  enough rt fuel (if rw =? 0 then Io_read else Io_write) ->
  __fortio_main rt fuel z0 ab ac rw f t =
    Some (first_failure (array_events rt z0 ab ac rw f t),
          t ++ array_events rt z0 ab ac rw f t).
Proof.
  intros Htag Hsize Hfuel. unfold __fortio_main.
  rewrite Htag, Z.eqb_refl. cbn [negb].
  destruct (Z.leb_spec (F90_GSIZE_G ac) 0); [lia|].
  by apply array_events_spec.
Qed.

Lemma enough_of_fuel rt fuel rw :
  rw <> 0 \/ (1 <= fuel)%nat ->
  enough rt fuel (if rw =? 0 then Io_read else Io_write).
Proof.
  intros [Hrw|Hf]; [left|right; by right].
  by destruct (Z.eqb_spec rw 0).
Qed.

(** X11.  In single-participant mode [__fortio_main] does not look at the
    direction: a read call and a write call (and any amount of fuel) give
    the same status and the same events, and these are address
    resolutions and f90io calls only: no scratch buffer, no replication
    setup, no send, receive or broadcast. *)
Theorem local_mode_ignores_direction
    (rt : runtime) (fuel fuel' : nat) (z0 : fio_parm) (ab : addr)
    (ac : F90_Desc) (rw rw' : Z) (f : io_fn) (t : trace) :
  LOCAL_MODE rt = true ->
  __fortio_main rt fuel z0 ab ac rw f t
  = __fortio_main rt fuel' z0 ab ac rw' f t /\
  exists st t',
    __fortio_main rt fuel z0 ab ac rw f t = Some (st, t ++ t') /\
    forallb is_local_call t' = true.
Proof.
  intros Hl.
  assert (Hmain : forall fu r,
    exists t',
      forallb is_local_call t' = true /\
      __fortio_main rt fu z0 ab ac r f t =
        Some (first_failure t', t ++ t') /\
      forall fu2 r2,
        __fortio_main rt fu2 z0 ab ac r2 f t = Some (first_failure t', t ++ t')).
  { intros fu r. unfold __fortio_main.
    destruct (negb (F90_TAG_G ac =? __DESC rt)).
    - eexists. split; [|split; [|intros fu2 r2]];
        [|rewrite fortio_main_scalar_spec by done; cbv zeta;
          rewrite Hl, andb_false_r, app_nil_r; cbn [orb]; f_equal; f_equal;
          cbn [first_failure]; by rewrite zero_or_self..].
      done.
    - destruct (F90_GSIZE_G ac <=? 0).
      + exists []. unfold io_ret. by rewrite app_nil_r.
      + assert (Hev : forall r2,
                  array_events rt z0 ab ac r2 f t
                  = array_events rt z0 ab ac 1 f t).
        { intros r2. unfold array_events. cbv zeta.
          rewrite Hl, !andb_false_r.
          change (array_request z0 ab ac r2 f)
            with (with_routine (array_request z0 ab ac 1 f)
                    (if r2 =? 0 then Io_read else Io_write)).
          change (array_request z0 ab ac 1 f)
            with (with_routine (array_request z0 ab ac 1 f) Io_write) at 3 4.
          f_equal. destruct (0 <? F90_RANK_G ac).
          - by apply loop_events_local.
          - apply (run_events_local rt
                     (set_cnt_str (array_request z0 ab ac 1 f) 1 1)). done. }
        exists (array_events rt z0 ab ac 1 f t). split; [|split].
        * unfold array_events. cbv zeta. rewrite Hl, andb_false_r. cbn [app].
          apply filter_negb_nil_forallb.
          destruct (0 <? F90_RANK_G ac).
          -- rewrite (observe_loop rt _ (fun _ => []) (fun _ => True));
               [|done|done|intros; by apply run_local_only|done].
             apply flat_map_nothing.
          -- by apply run_local_only.
        * rewrite array_events_spec by (right; by left). by rewrite Hev.
        * intros fu2 r2.
          rewrite array_events_spec by (right; by left). by rewrite Hev. }
  destruct (Hmain fuel rw) as (t' & Hloc & Hrun & Hall).
  split; [by rewrite Hrun, (Hall fuel' rw')|].
  by exists (first_failure t'), t'.
Qed.

Lemma local_mode_ignores_direction_witness :
  LOCAL_MODE Samples.alone = true /\
  __fortio_main Samples.alone 0 Samples.stack_junk 1000 Samples.vector 0
    fails_second []
  = __fortio_main Samples.alone 1 Samples.stack_junk 1000 Samples.vector 1
      fails_second [] /\
  exists st t',
    __fortio_main Samples.alone 0 Samples.stack_junk 1000 Samples.vector 0
      fails_second [] = Some (st, [] ++ t') /\
    forallb is_local_call t' = true.
Proof.
  split; [reflexivity|].
  exact (local_mode_ignores_direction Samples.alone 0 1 Samples.stack_junk
           1000 Samples.vector 0 1 fails_second [] eq_refl).
Defined.

(** X12.  A scalar (a descriptor whose tag is not [__DESC]) read in a
    multi-participant job: the I/O coordinator makes the one f90io call
    and then broadcasts; every other participant makes no f90io call,
    joins the same broadcast (same root, one element of the same kind and
    size) and returns 0. *)
Theorem scalar_global_read
    (rt : runtime) (fuel : nat) (z0 z0' : fio_parm) (ab ab' : addr)
    (ac : F90_Desc) (f f' : io_fn) (cpu : Z)
    (la : addr -> F90_Desc -> list Z -> addr) (t u : trace) :
  F90_TAG_G ac <> __DESC rt -> LOCAL_MODE rt = false ->
  GET_DIST_LCPU rt = GET_DIST_IOPROC rt -> cpu <> GET_DIST_IOPROC rt ->
  let kind := TYPEKIND rt ac in
  let size := GET_DIST_SIZE_OF rt kind in
  let r := f t kind 1 1 ab size in
  __fortio_main rt fuel z0 ab ac 0 f t
  = Some (r, t ++ [Ev_f90io_rw kind 1 1 ab size r;
                   Ev_rbcstl (GET_DIST_IOPROC rt) ab 1 1 kind size]) /\
  __fortio_main (as_participant rt cpu la) fuel z0' ab' ac 0 f' u
  = Some (0, u ++ [Ev_rbcstl (GET_DIST_IOPROC rt) ab' 1 1 kind size]).
Proof.
  intros Htag Hl Hc Hcpu. cbv zeta. unfold __fortio_main.
  cbn [__DESC as_participant].
  destruct (Z.eqb_spec (F90_TAG_G ac) (__DESC rt)) as [?|_]; [done|].
  cbn [negb]. rewrite !fortio_main_scalar_spec by done. cbv zeta.
  cbn [LOCAL_MODE GET_DIST_LCPU GET_DIST_IOPROC GET_DIST_SIZE_OF TYPEKIND
       as_participant].
  rewrite Hl, Hc, Z.eqb_refl.
  destruct (Z.eqb_spec cpu (GET_DIST_IOPROC rt)) as [?|_]; [done|].
  done.
Qed.

Lemma scalar_global_read_witness :
  F90_TAG_G Samples.scalar <> __DESC Samples.coordinator /\
  LOCAL_MODE Samples.coordinator = false /\
  GET_DIST_LCPU Samples.coordinator = GET_DIST_IOPROC Samples.coordinator /\
  0 <> GET_DIST_IOPROC Samples.coordinator /\
  __fortio_main Samples.coordinator 0 Samples.stack_junk 1000 Samples.scalar
    0 Samples.fails_5 []
  = Some (5, [] ++ [Ev_f90io_rw 25 1 1 1000 4 5; Ev_rbcstl 1 1000 1 1 25 4]) /\
  __fortio_main Samples.peer 0 Samples.stack_junk 2000 Samples.scalar
    0 Samples.fails_5 []
  = Some (0, [] ++ [Ev_rbcstl 1 2000 1 1 25 4]).
Proof.
  assert (Htag : F90_TAG_G Samples.scalar <> __DESC Samples.coordinator)
    by (simpl; lia).
  assert (Hcpu : 0 <> GET_DIST_IOPROC Samples.coordinator) by (simpl; lia).
  split; [exact Htag|]. split; [reflexivity|]. split; [reflexivity|].
  split; [exact Hcpu|].
  exact (scalar_global_read Samples.coordinator 0 Samples.stack_junk
           Samples.stack_junk 1000 2000 Samples.scalar Samples.fails_5
           Samples.fails_5 0 (fun ab _ _ => ab + 8) [] []
           Htag eq_refl eq_refl Hcpu).
Defined.

(** X13.  A scalar write in a multi-participant job: the I/O coordinator
    makes the one f90io call and nothing else; every other participant
    does nothing at all and returns 0. *)
Theorem scalar_global_write
    (rt : runtime) (fuel : nat) (z0 z0' : fio_parm) (ab ab' : addr)
    (ac : F90_Desc) (rw : Z) (f f' : io_fn) (cpu : Z)
    (la : addr -> F90_Desc -> list Z -> addr) (t u : trace) :
  F90_TAG_G ac <> __DESC rt -> LOCAL_MODE rt = false ->
  GET_DIST_LCPU rt = GET_DIST_IOPROC rt -> cpu <> GET_DIST_IOPROC rt ->
  rw <> 0 ->
  let kind := TYPEKIND rt ac in
  let size := GET_DIST_SIZE_OF rt kind in
  let r := f t kind 1 1 ab size in
  __fortio_main rt fuel z0 ab ac rw f t
  = Some (r, t ++ [Ev_f90io_rw kind 1 1 ab size r]) /\
  __fortio_main (as_participant rt cpu la) fuel z0' ab' ac rw f' u
  = Some (0, u).
Proof.
  intros Htag Hl Hc Hcpu Hrw. cbv zeta. unfold __fortio_main.
  cbn [__DESC as_participant].
  destruct (Z.eqb_spec (F90_TAG_G ac) (__DESC rt)) as [?|_]; [done|].
  cbn [negb]. rewrite !fortio_main_scalar_spec by done. cbv zeta.
  cbn [LOCAL_MODE GET_DIST_LCPU GET_DIST_IOPROC GET_DIST_SIZE_OF TYPEKIND
       as_participant].
  rewrite Hl, Hc, Z.eqb_refl.
  destruct (Z.eqb_spec cpu (GET_DIST_IOPROC rt)) as [?|_]; [done|].
  destruct (Z.eqb_spec rw 0) as [?|_]; [done|].
  cbn [orb andb app]. by rewrite !app_nil_r.
Qed.

Lemma scalar_global_write_witness :
  F90_TAG_G Samples.scalar <> __DESC Samples.coordinator /\
  LOCAL_MODE Samples.coordinator = false /\
  GET_DIST_LCPU Samples.coordinator = GET_DIST_IOPROC Samples.coordinator /\
  0 <> GET_DIST_IOPROC Samples.coordinator /\ 1 <> 0 /\
  __fortio_main Samples.coordinator 0 Samples.stack_junk 1000 Samples.scalar
    1 Samples.fails_5 []
  = Some (5, [] ++ [Ev_f90io_rw 25 1 1 1000 4 5]) /\
  __fortio_main Samples.peer 0 Samples.stack_junk 2000 Samples.scalar
    1 Samples.fails_5 []
  = Some (0, []).
Proof.
  assert (Htag : F90_TAG_G Samples.scalar <> __DESC Samples.coordinator)
    by (simpl; lia).
  assert (Hcpu : 0 <> GET_DIST_IOPROC Samples.coordinator) by (simpl; lia).
  assert (Hrw : 1 <> 0) by lia.
  split; [exact Htag|]. split; [reflexivity|]. split; [reflexivity|].
  split; [exact Hcpu|]. split; [exact Hrw|].
  exact (scalar_global_write Samples.coordinator 0 Samples.stack_junk
           Samples.stack_junk 1000 2000 Samples.scalar 1 Samples.fails_5
           Samples.fails_5 0 (fun ab _ _ => ab + 8) [] []
           Htag eq_refl eq_refl Hcpu Hrw).
Defined.

(** X14.  An array descriptor of rank 0 (or less) with a positive size is
    written as exactly one run of count 1 and stride 1: one address
    resolution from the base [ab + DIST_SCOFF * F90_LEN], with the index
    that the request held before the call (the function never assigns
    it), and one f90io call on the resolved address, whose result is
    returned. *)
Theorem rank0_descriptor_is_one_run
    (rt : runtime) (fuel : nat) (z0 : fio_parm) (ab : addr) (ac : F90_Desc)
    (rw : Z) (f : io_fn) (t : trace) :
  F90_TAG_G ac = __DESC rt -> 0 < F90_GSIZE_G ac -> F90_RANK_G ac <= 0 ->
  rw <> 0 ->
  let base := ab + int_mul (DIST_SCOFF_G ac) (F90_LEN_G ac) in
  let adr := __fort_local_address rt base ac (z_index z0) in
  let resolved := Ev_local_address base (z_index z0) adr in
  let r := f (t ++ [resolved]) (F90_KIND_G ac) 1 (int_mul 1 (F90_LEN_G ac))
             adr (F90_LEN_G ac) in
  __fortio_main rt fuel z0 ab ac rw f t
  = Some (r, t ++ [resolved;
                   Ev_f90io_rw (F90_KIND_G ac) 1 (int_mul 1 (F90_LEN_G ac))
                     adr (F90_LEN_G ac) r]).
Proof.
  intros Htag Hsize Hrank Hrw. cbv zeta.
  assert (Hw : (if rw =? 0 then Io_read else Io_write) = Io_write)
    by (by destruct (Z.eqb_spec rw 0)).
  rewrite fortio_main_array_case by (done || (rewrite Hw; by left)).
  unfold array_events, array_request. cbv zeta.
  destruct (Z.eqb_spec rw 0) as [?|_]; [done|].
  destruct (Z.ltb_spec 0 (F90_RANK_G ac)); [lia|].
  cbn [andb app]. rewrite app_nil_r. unfold run_events, run_call.
  cbn [z_fio_rw z_stat z_ab z_ac z_index z_cnt z_str z_f90io_rw set_cnt_str
       set_request set_stat run_resolved].
  change (0 =? 0) with true. cbv iota.
  cbn [first_failure]. by rewrite zero_or_self.
Qed.

Lemma rank0_descriptor_is_one_run_witness :
  F90_TAG_G rank0 = __DESC Samples.alone /\ 0 < F90_GSIZE_G rank0 /\
  F90_RANK_G rank0 <= 0 /\ 1 <> 0 /\
  __fortio_main Samples.alone 0 Samples.stack_junk 1000 rank0 1
    Samples.fails_5 []
  = Some (5, [] ++ [Ev_local_address 1012 [77] 1020;
                    Ev_f90io_rw 25 1 4 1020 4 5]).
Proof.
  assert (Hsize : 0 < F90_GSIZE_G rank0) by (simpl; lia).
  assert (Hrank : F90_RANK_G rank0 <= 0) by (simpl; lia).
  assert (Hrw : 1 <> 0) by lia.
  split; [reflexivity|]. split; [exact Hsize|]. split; [exact Hrank|].
  split; [exact Hrw|].
  exact (rank0_descriptor_is_one_run Samples.alone 0 Samples.stack_junk 1000
           rank0 1 Samples.fails_5 [] eq_refl Hsize Hrank Hrw).
Defined.

(** X15.  In any call of [__fortio_main] that returns, read or write,
    scalar or array, the f90io calls stop at the first failure: every
    f90io call but the last returned 0, and the status returned is 0 when
    all did, and otherwise the nonzero result of the last call. *)
Theorem f90io_calls_stop_at_first_failure
    (rt : runtime) (fuel : nat) (z0 : fio_parm) (ab : addr) (ac : F90_Desc)
    (rw : Z) (f : io_fn) (t : trace) :
  rw <> 0 \/ (1 <= fuel)%nat ->
  exists st t',
    __fortio_main rt fuel z0 ab ac rw f t = Some (st, t ++ t') /\
    halted st (io_results t').
Proof.
  intros Hfuel. unfold __fortio_main.
  destruct (Z.eqb_spec (F90_TAG_G ac) (__DESC rt)) as [Htag|Htag]; cbn [negb].
  - destruct (Z.leb_spec (F90_GSIZE_G ac) 0) as [?|Hsize].
    + exists 0, []. unfold io_ret. rewrite app_nil_r. split; [done|].
      by exists 0%nat.
    + rewrite array_events_spec by (by apply enough_of_fuel).
      eexists _, _. split; [done|].
      unfold array_events. cbv zeta.
      set (pre := if (rw =? 0) && negb (LOCAL_MODE rt) then _ else _).
      assert (Hpre : io_results pre = [] /\ first_failure pre = 0).
      { subst pre. by destruct ((rw =? 0) && negb (LOCAL_MODE rt)). }
      destruct Hpre as [Hp1 Hp2].
      rewrite first_failure_app, io_results_app, Hp1, Hp2. cbn [app].
      change (0 =? 0) with true. cbv iota.
      destruct (0 <? F90_RANK_G ac).
      * apply loop_io_results.
        by destruct ((rw =? 0) && negb (LOCAL_MODE rt)).
      * apply run_halted.
        by destruct ((rw =? 0) && negb (LOCAL_MODE rt)).
  - rewrite fortio_main_scalar_spec by done. cbv zeta.
    eexists _, _. split; [done|].
    rewrite io_results_app.
    assert (Hb : forall b : bool,
              io_results
                (if b then [Ev_rbcstl (GET_DIST_IOPROC rt) ab 1 1
                              (TYPEKIND rt ac)
                              (GET_DIST_SIZE_OF rt (TYPEKIND rt ac))]
                 else []) = []) by (by intros []).
    rewrite Hb, app_nil_r.
    destruct (LOCAL_MODE rt || (GET_DIST_LCPU rt =? GET_DIST_IOPROC rt)).
    + cbn [io_results].
      match goal with |- halted ?r _ =>
        destruct (Z.eqb_spec r 0) as [H0|Hne]
      end.
      * exists 1%nat. rewrite H0. done.
      * exists 0%nat. cbn [replicate app].
        match goal with |- _ = if ?r =? 0 then _ else _ =>
          by destruct (Z.eqb_spec r 0)
        end.
    + by exists 0%nat.
Qed.

Lemma f90io_calls_stop_at_first_failure_witness :
  (1 <> 0 \/ (1 <= 0)%nat) /\
  exists st t',
    __fortio_main Samples.alone 0 Samples.stack_junk 1000 Samples.vector 1
      fails_second [] = Some (st, [] ++ t') /\
    halted st (io_results t').
Proof.
  assert (H : 1 <> 0 \/ (1 <= 0)%nat) by (left; lia).
  split; [exact H|].
  exact (f90io_calls_stop_at_first_failure Samples.alone 0 Samples.stack_junk
           1000 Samples.vector 1 fails_second [] H).
Defined.

(** The sends and the receives of a run do not depend on the replication
    descriptor held in the request. *)
Lemma array_request_runs rt z0 ab ac rw f :
  let z1 := array_request z0 ab ac rw f in
  let z2 := if (rw =? 0) && negb (LOCAL_MODE rt)
            then set_repl z1 (__fort_describe_replication rt ac) else z1 in
  forall r,
    run_resolved rt (set_run z2 r) = run_resolved rt (set_run z1 r) /\
    run_sends rt (set_run z2 r) = run_sends rt (set_run z1 r) /\
    run_recvs rt (set_run z2 r) = run_recvs rt (set_run z1 r) /\
    z_fio_rw z2 = z_fio_rw z1.
Proof.
  cbv zeta. intros r. by destruct ((rw =? 0) && negb (LOCAL_MODE rt)).
Qed.

Lemma array_loop_observed rt fuel z0 ab ac rw f t
    (p : event -> bool) (expected : fio_parm -> trace) :
  F90_TAG_G ac = __DESC rt -> 0 < F90_GSIZE_G ac -> 0 < F90_RANK_G ac ->
  rw <> 0 \/ (1 <= fuel)%nat ->
  p Ev_describe_replication = false ->
  (forall z s, expected (set_stat z s) = expected z) ->
  (forall z r u,
     z_fio_rw z = (if rw =? 0 then Io_read else Io_write) ->
     List.filter p (run_events rt (set_run z r) u) = expected (set_run z r)) ->
  (forall r,
     expected (set_run (if (rw =? 0) && negb (LOCAL_MODE rt)
                        then set_repl (array_request z0 ab ac rw f)
                               (__fort_describe_replication rt ac)
                        else array_request z0 ab ac rw f) r)
     = expected (set_run (array_request z0 ab ac rw f) r)) ->
  exists st t',
    __fortio_main rt fuel z0 ab ac rw f t = Some (st, t ++ t') /\
    List.filter p t' =
      flat_map (fun r => expected (set_run (array_request z0 ab ac rw f) r))
        (fortio_runs rt ac (F90_RANK_G ac)).
Proof.
  intros Htag Hsize Hrank Hfuel Hdesc Hstat Hrun Hrepl.
  rewrite fortio_main_array_case by (done || by apply enough_of_fuel).
  eexists _, _. split; [done|].
  unfold array_events. cbv zeta.
  destruct (Z.ltb_spec 0 (F90_RANK_G ac)); [|lia].
  rewrite List.filter_app.
  assert (Hpre : List.filter p
                   (if (rw =? 0) && negb (LOCAL_MODE rt)
                    then [Ev_describe_replication] else []) = []).
  { destruct ((rw =? 0) && negb (LOCAL_MODE rt)); [|done].
    simpl. by rewrite Hdesc. }
  rewrite Hpre. cbn [app].
  rewrite (observe_loop rt p expected
             (fun z => z_fio_rw z = if rw =? 0 then Io_read else Io_write));
    [|done|done|done|by destruct ((rw =? 0) && negb (LOCAL_MODE rt))].
  apply flat_map_ext. intros r. apply Hrepl.
Qed.

(** X16.  An array call of [__fortio_main] (positive size and rank)
    resolves the local address once for every run that the index-space
    loop produces, in order, always from the base
    [ab + DIST_SCOFF * F90_LEN], also for the runs whose f90io call is
    skipped after a failure. *)
Theorem array_call_resolves_every_run
    (rt : runtime) (fuel : nat) (z0 : fio_parm) (ab : addr) (ac : F90_Desc)
    (rw : Z) (f : io_fn) (t : trace) :
  F90_TAG_G ac = __DESC rt -> 0 < F90_GSIZE_G ac -> 0 < F90_RANK_G ac ->
  rw <> 0 \/ (1 <= fuel)%nat ->
  let base := ab + int_mul (DIST_SCOFF_G ac) (F90_LEN_G ac) in
  exists st t',
    __fortio_main rt fuel z0 ab ac rw f t = Some (st, t ++ t') /\
    List.filter is_resolver t' =
      map (fun r => Ev_local_address base (run_index r)
                      (__fort_local_address rt base ac (run_index r)))
        (fortio_runs rt ac (F90_RANK_G ac)).
Proof.
  intros Htag Hsize Hrank Hfuel. cbv zeta.
  destruct (array_loop_observed rt fuel z0 ab ac rw f t is_resolver
              (fun z => [run_resolved rt z]))
    as (st & t' & Hrun & Hobs); try done.
  - intros z r u _. apply run_resolves.
  - intros r. by destruct ((rw =? 0) && negb (LOCAL_MODE rt)).
  - exists st, t'. split; [done|]. by rewrite Hobs, flat_map_singleton.
Qed.

Lemma array_call_resolves_every_run_witness :
  F90_TAG_G Samples.vector = __DESC Samples.alone /\
  0 < F90_GSIZE_G Samples.vector /\ 0 < F90_RANK_G Samples.vector /\
  (1 <> 0 \/ (1 <= 0)%nat) /\
  exists st t',
    __fortio_main Samples.alone 0 Samples.stack_junk 1000 Samples.vector 1
      Samples.fails_5 [] = Some (st, [] ++ t') /\
    List.filter is_resolver t' =
      [Ev_local_address 1000 [1] 1008; Ev_local_address 1000 [3] 1008].
Proof.
  assert (Hsize : 0 < F90_GSIZE_G Samples.vector) by (simpl; lia).
  assert (Hrank : 0 < F90_RANK_G Samples.vector) by (simpl; lia).
  assert (H : 1 <> 0 \/ (1 <= 0)%nat) by (left; lia).
  split; [reflexivity|]. split; [exact Hsize|]. split; [exact Hrank|].
  split; [exact H|].
  exact (array_call_resolves_every_run Samples.alone 0 Samples.stack_junk
           1000 Samples.vector 1 Samples.fails_5 [] eq_refl Hsize Hrank H).
Defined.

Lemma global_read_sends rt fuel z0 ab ac f t :
  F90_TAG_G ac = __DESC rt -> 0 < F90_GSIZE_G ac -> 0 < F90_RANK_G ac ->
  LOCAL_MODE rt = false -> GET_DIST_LCPU rt = GET_DIST_IOPROC rt ->
  (1 <= fuel)%nat ->
  exists st t',
    __fortio_main rt fuel z0 ab ac 0 f t = Some (st, t ++ t') /\
    List.filter is_send t' =
      flat_map (fun r => run_sends rt (set_run (array_request z0 ab ac 0 f) r))
        (fortio_runs rt ac (F90_RANK_G ac)).
Proof.
  intros Htag Hsize Hrank Hl Hc Hfuel.
  apply (array_loop_observed rt fuel z0 ab ac 0 f t is_send (run_sends rt));
    try done.
  - by right.
  - intros z r u Hz. by apply run_sends_at_coordinator.
  - intros r. by destruct ((0 =? 0) && negb (LOCAL_MODE rt)).
Qed.

Lemma global_read_receives rt fuel z0 ab ac f t :
  F90_TAG_G ac = __DESC rt -> 0 < F90_GSIZE_G ac -> 0 < F90_RANK_G ac ->
  LOCAL_MODE rt = false -> GET_DIST_LCPU rt <> GET_DIST_IOPROC rt ->
  (1 <= fuel)%nat ->
  exists st t',
    __fortio_main rt fuel z0 ab ac 0 f t = Some (st, t ++ t') /\
    List.filter is_transport t' =
      flat_map (fun r => run_recvs rt (set_run (array_request z0 ab ac 0 f) r))
        (fortio_runs rt ac (F90_RANK_G ac)).
Proof.
  intros Htag Hsize Hrank Hl Hc Hfuel.
  apply (array_loop_observed rt fuel z0 ab ac 0 f t is_transport
           (run_recvs rt)); try done.
  - by right.
  - intros z r u Hz. by apply run_transport_elsewhere.
  - intros r. by destruct ((0 =? 0) && negb (LOCAL_MODE rt)).
Qed.

(** X17.  In a global array read the I/O coordinator sends, whatever the
    f90io calls returned: when it is not participant 0, one send to
    participant 0 for every run, in run order, of the run's count, kind
    and length, from the local address, or from the scratch buffer with
    stride 1 when the coordinator does not hold the run; when it is
    participant 0, nothing at all. *)
Theorem global_read_sends_every_run
    (rt : runtime) (fuel : nat) (z0 : fio_parm) (ab : addr) (ac : F90_Desc)
    (f : io_fn) (t : trace) :
  F90_TAG_G ac = __DESC rt -> 0 < F90_GSIZE_G ac -> 0 < F90_RANK_G ac ->
  LOCAL_MODE rt = false -> GET_DIST_LCPU rt = GET_DIST_IOPROC rt ->
  (1 <= fuel)%nat ->
  let base := ab + int_mul (DIST_SCOFF_G ac) (F90_LEN_G ac) in
  let send_of r :=
    let adr := __fort_local_address rt base ac (run_index r) in
    let buf := __fort_getgbuf rt (int_mul (run_cnt r) (F90_LEN_G ac)) in
    Ev_rsendl 0 (if adr =? NULL then buf else adr) (run_cnt r)
      (if adr =? NULL then 1 else run_str r) (F90_KIND_G ac) (F90_LEN_G ac) in
  exists st t',
    __fortio_main rt fuel z0 ab ac 0 f t = Some (st, t ++ t') /\
    List.filter is_send t' =
      if GET_DIST_LCPU rt =? 0 then []
      else map send_of (fortio_runs rt ac (F90_RANK_G ac)).
Proof.
  intros Htag Hsize Hrank Hl Hc Hfuel. cbv zeta.
  destruct (global_read_sends rt fuel z0 ab ac f t)
    as (st & t' & Hrun & Hobs); try done.
  exists st, t'. split; [done|]. rewrite Hobs. unfold run_sends.
  destruct (GET_DIST_LCPU rt =? 0).
  - apply flat_map_nothing.
  - by rewrite flat_map_singleton.
Qed.

Lemma global_read_sends_every_run_witness :
  F90_TAG_G Samples.vector = __DESC Samples.coordinator /\
  0 < F90_GSIZE_G Samples.vector /\ 0 < F90_RANK_G Samples.vector /\
  LOCAL_MODE Samples.coordinator = false /\
  GET_DIST_LCPU Samples.coordinator = GET_DIST_IOPROC Samples.coordinator /\
  (1 <= 1)%nat /\
  exists st t',
    __fortio_main Samples.coordinator 1 Samples.stack_junk 1000
      Samples.vector 0 Samples.fails_5 [] = Some (st, [] ++ t') /\
    List.filter is_send t' =
      [Ev_rsendl 0 4096 2 1 25 4; Ev_rsendl 0 4096 2 1 25 4].
Proof.
  assert (Hsize : 0 < F90_GSIZE_G Samples.vector) by (simpl; lia).
  assert (Hrank : 0 < F90_RANK_G Samples.vector) by (simpl; lia).
  assert (Hfuel : (1 <= 1)%nat) by lia.
  split; [reflexivity|]. split; [exact Hsize|]. split; [exact Hrank|].
  split; [reflexivity|]. split; [reflexivity|]. split; [exact Hfuel|].
  exact (global_read_sends_every_run Samples.coordinator 1 Samples.stack_junk
           1000 Samples.vector Samples.fails_5 [] eq_refl Hsize Hrank eq_refl
           eq_refl Hfuel).
Defined.

(** X18.  In a global array read a participant other than the I/O
    coordinator performs, as its only transport operations, one receive
    from the coordinator for every run whose local address is not NULL,
    in run order, into that address, with the run's count and stride. *)
Theorem global_read_receives_owned_runs
    (rt : runtime) (fuel : nat) (z0 : fio_parm) (ab : addr) (ac : F90_Desc)
    (f : io_fn) (t : trace) :
  F90_TAG_G ac = __DESC rt -> 0 < F90_GSIZE_G ac -> 0 < F90_RANK_G ac ->
  LOCAL_MODE rt = false -> GET_DIST_LCPU rt <> GET_DIST_IOPROC rt ->
  (1 <= fuel)%nat ->
  let base := ab + int_mul (DIST_SCOFF_G ac) (F90_LEN_G ac) in
  let recv_of r :=
    let adr := __fort_local_address rt base ac (run_index r) in
    if adr =? NULL then []
    else [Ev_rrecvl (GET_DIST_IOPROC rt) adr (run_cnt r) (run_str r)
            (F90_KIND_G ac) (F90_LEN_G ac)] in
  exists st t',
    __fortio_main rt fuel z0 ab ac 0 f t = Some (st, t ++ t') /\
    List.filter is_transport t' =
      flat_map recv_of (fortio_runs rt ac (F90_RANK_G ac)).
Proof.
  intros Htag Hsize Hrank Hl Hc Hfuel. cbv zeta.
  destruct (global_read_receives rt fuel z0 ab ac f t)
    as (st & t' & Hrun & Hobs); try done.
  exists st, t'. split; [done|]. rewrite Hobs.
  apply flat_map_ext. intros r. reflexivity.
Qed.

Lemma global_read_receives_owned_runs_witness :
  F90_TAG_G Samples.vector = __DESC Samples.peer /\
  0 < F90_GSIZE_G Samples.vector /\ 0 < F90_RANK_G Samples.vector /\
  LOCAL_MODE Samples.peer = false /\
  GET_DIST_LCPU Samples.peer <> GET_DIST_IOPROC Samples.peer /\
  (1 <= 1)%nat /\
  exists st t',
    __fortio_main Samples.peer 1 Samples.stack_junk 1000
      Samples.vector 0 Samples.fails_5 [] = Some (st, [] ++ t') /\
    List.filter is_transport t' =
      [Ev_rrecvl 1 1008 2 1 25 4; Ev_rrecvl 1 1008 2 1 25 4].
Proof.
  assert (Hsize : 0 < F90_GSIZE_G Samples.vector) by (simpl; lia).
  assert (Hrank : 0 < F90_RANK_G Samples.vector) by (simpl; lia).
  assert (Hc : GET_DIST_LCPU Samples.peer <> GET_DIST_IOPROC Samples.peer)
    by (simpl; lia).
  assert (Hfuel : (1 <= 1)%nat) by lia.
  split; [reflexivity|]. split; [exact Hsize|]. split; [exact Hrank|].
  split; [reflexivity|]. split; [exact Hc|]. split; [exact Hfuel|].
  exact (global_read_receives_owned_runs Samples.peer 1 Samples.stack_junk
           1000 Samples.vector Samples.fails_5 [] eq_refl Hsize Hrank eq_refl
           Hc Hfuel).
Defined.

(** X19.  When the I/O coordinator of a global array read is participant
    0, it sends nothing, because the only owner that [__fort_owner] and
    [__fort_next_owner] enumerate is participant 0 itself; so the receive
    that another participant posts for a run it holds (its local address
    is not NULL) is in its trace while the coordinator's trace has no send
    at all. *)
Theorem coordinator_zero_leaves_receive_unmatched
    (rt : runtime) (fuel : nat) (z0 z0' : fio_parm) (ab ab' : addr)
    (ac : F90_Desc) (f f' : io_fn) (cpu : Z)
    (la : addr -> F90_Desc -> list Z -> addr) (r : run) (t u : trace) :
  F90_TAG_G ac = __DESC rt -> 0 < F90_GSIZE_G ac -> 0 < F90_RANK_G ac ->
  LOCAL_MODE rt = false -> GET_DIST_LCPU rt = 0 -> GET_DIST_IOPROC rt = 0 ->
  cpu <> 0 -> (1 <= fuel)%nat ->
  In r (fortio_runs rt ac (F90_RANK_G ac)) ->
  la (ab' + int_mul (DIST_SCOFF_G ac) (F90_LEN_G ac)) ac (run_index r)
    <> NULL ->
  exists st tc st' tp,
    __fortio_main rt fuel z0 ab ac 0 f t = Some (st, t ++ tc) /\
    __fortio_main (as_participant rt cpu la) fuel z0' ab' ac 0 f' u
      = Some (st', u ++ tp) /\
    none_of is_send tc = true /\
    In (Ev_rrecvl 0
          (la (ab' + int_mul (DIST_SCOFF_G ac) (F90_LEN_G ac)) ac (run_index r))
          (run_cnt r) (run_str r) (F90_KIND_G ac) (F90_LEN_G ac)) tp.
Proof.
  intros Htag Hsize Hrank Hl Hlcpu Hio Hcpu Hfuel Hin Hadr.
  destruct (global_read_sends rt fuel z0 ab ac f t)
    as (st & tc & Hrun & Hsends); try done; [congruence|].
  destruct (global_read_receives (as_participant rt cpu la) fuel z0' ab' ac
              f' u) as (st' & tp & Hrun' & Hrecvs); try done.
  { cbn [GET_DIST_LCPU GET_DIST_IOPROC as_participant]. congruence. }
  exists st, tc, st', tp. split; [done|]. split; [done|]. split.
  - apply filter_nil_none_of. rewrite Hsends. unfold run_sends.
    rewrite Hlcpu. change (0 =? 0) with true. cbv iota.
    apply flat_map_nothing.
  - apply (filter_In_event is_transport). rewrite Hrecvs.
    apply in_flat_map. exists r. split; [done|].
    unfold run_recvs.
    cbn [z_ab z_ac z_index z_cnt z_str set_run array_request set_request
         set_stat __fort_local_address GET_DIST_IOPROC as_participant].
    destruct (Z.eqb_spec
                (la (ab' + int_mul (DIST_SCOFF_G ac) (F90_LEN_G ac)) ac
                   (run_index r)) NULL) as [?|_]; [done|].
    left. by rewrite Hio.
Qed.

Lemma coordinator_zero_leaves_receive_unmatched_witness :
  F90_TAG_G Samples.vector = __DESC root /\
  0 < F90_GSIZE_G Samples.vector /\ 0 < F90_RANK_G Samples.vector /\
  LOCAL_MODE root = false /\ GET_DIST_LCPU root = 0 /\
  GET_DIST_IOPROC root = 0 /\ 1 <> 0 /\ (1 <= 1)%nat /\
  In (mk_run [3] 2 1) (fortio_runs root Samples.vector
                         (F90_RANK_G Samples.vector)) /\
  exists st tc st' tp,
    __fortio_main root 1 Samples.stack_junk 1000 Samples.vector 0
      Samples.fails_5 [] = Some (st, [] ++ tc) /\
    __fortio_main (as_participant root 1 holder) 1 Samples.stack_junk 1000
      Samples.vector 0 Samples.fails_5 [] = Some (st', [] ++ tp) /\
    none_of is_send tc = true /\
    In (Ev_rrecvl 0 1008 2 1 25 4) tp.
Proof.
  assert (Hsize : 0 < F90_GSIZE_G Samples.vector) by (simpl; lia).
  assert (Hrank : 0 < F90_RANK_G Samples.vector) by (simpl; lia).
  assert (Hcpu : 1 <> 0) by lia.
  assert (Hfuel : (1 <= 1)%nat) by lia.
  assert (Hin : In (mk_run [3] 2 1)
                  (fortio_runs root Samples.vector
                     (F90_RANK_G Samples.vector)))
    by (right; left; reflexivity).
  assert (Hadr : holder (1000 + int_mul (DIST_SCOFF_G Samples.vector)
                                  (F90_LEN_G Samples.vector))
                   Samples.vector (run_index (mk_run [3] 2 1)) <> NULL)
    by (vm_compute; discriminate).
  split; [reflexivity|]. split; [exact Hsize|]. split; [exact Hrank|].
  split; [reflexivity|]. split; [reflexivity|]. split; [reflexivity|].
  split; [exact Hcpu|]. split; [exact Hfuel|]. split; [exact Hin|].
  exact (coordinator_zero_leaves_receive_unmatched root 1 Samples.stack_junk
           Samples.stack_junk 1000 1000 Samples.vector Samples.fails_5
           Samples.fails_5 1 holder (mk_run [3] 2 1) [] []
           eq_refl Hsize Hrank eq_refl eq_refl eq_refl Hcpu Hfuel Hin Hadr).
Defined.

End descRW_traces.
